(** * Scraped listings: the fetch endpoint and the listing view

    A shallow embedding of the two variants of the repository's pipeline

      - [Part000] (database [proptrust], collection [listings]) feeding the
        view of [components/property-listings.tsx] ([PropertyListings]), and
      - [Part001] (database [ccube_research], collection [apartment]) feeding
        the view of the second listing component ([Part002]),

    together with the properties the specification states about them.

    JavaScript values that the code handles as [any] are modelled by
    [JsValue]; exceptions by the sum type [Throws]; the MongoDB driver, the
    process environment and the parsing built-ins are parameters of the
    model, since their code is not part of the repository. *)

From Stdlib Require Import String Ascii List Bool Arith Lia Floats DecimalString.
From stdpp Require Import base option list.
Import ListNotations.
Local Open Scope string_scope.
Local Open Scope list_scope.
Set Warnings "-register-all".

(** ** JavaScript values *)

Module Js.

(** A BSON [ObjectId] as the driver hands it to the handler; the only thing
    the code does with it is [toHexString()] (and JSON serialisation, which
    yields the same string). *)
Record ObjectId : Type := mkObjectId { toHexString : string }.

(** Values of type [any].  An object is the list of its properties; reading
    a property takes the first entry with that name.  A property holding
    [VUndefined] and a missing property read the same ([undefined]), which is
    all the code can observe, as it never enumerates keys. *)
Inductive JsValue : Type :=
| VUndefined
| VNull
| VBool (b : bool)
| VNumber (n : float)
| VString (s : string)
| VArray (elems : list JsValue)
| VObject (props : list (string * JsValue))
| VObjectId (oid : ObjectId).

(** What a [catch (error)] clause can bind: an instance of [Error] with its
    message, or any other thrown value. *)
Inductive Thrown : Type :=
| ThrownError (message : string)
| ThrownValue (v : JsValue).

(** A computation that either throws or returns. *)
Definition Throws (A : Type) : Type := (Thrown + A)%type.

Definition ret {A} (a : A) : Throws A := inr a.
Definition throw {A} (e : Thrown) : Throws A := inl e.
Definition bind {A B} (m : Throws A) (k : A -> Throws B) : Throws B :=
  match m with
  | inl e => inl e
  | inr a => k a
  end.

Notation "'let*' x ':=' m 'in' k" := (bind m (fun x => k))
  (at level 10, x name, m at level 100, k at level 200).

(** [new TypeError(msg)] is an instance of [Error]. *)
Definition TypeError {A} (msg : string) : Throws A := throw (ThrownError msg).

(** [err instanceof Error ? err.message : fallback] *)
Definition message_or (fallback : string) (e : Thrown) : string :=
  match e with
  | ThrownError m => m
  | ThrownValue _ => fallback
  end.

(** Sequencing a throwing callback over an array, as [Array.prototype.map]
    does: the first exception aborts the traversal. *)
Fixpoint mapM {A B} (f : A -> Throws B) (l : list A) : Throws (list B) :=
  match l with
  | [] => ret []
  | a :: l' => bind (f a) (fun b => bind (mapM f l') (fun bs => ret (b :: bs)))
  end.

(** *** Numbers *)

Definition is_nan (n : float) : bool := negb (PrimFloat.eqb n n).

(** ToBoolean on a number: [0], [-0] and [NaN] are falsy. *)
Definition number_truthy (n : float) : bool :=
  negb (PrimFloat.eqb n 0%float || is_nan n).

(** *** Strings *)

Definition is_empty (s : string) : bool :=
  match s with
  | EmptyString => true
  | String _ _ => false
  end.

(** [String.prototype.toLowerCase], for text of ASCII characters: there the
    built-in maps [A]-[Z] to [a]-[z], character by character, and leaves
    every other character as it is.  On other text the built-in follows the
    Unicode case mappings, which also depend on the context of a character
    (a capital sigma is lower-cased according to its place in the word);
    such text is outside this definition, and what is stated about the
    search of an arbitrary term in arbitrary fields is stated for
    [ascii_text]. *)
Definition lower_ascii (c : ascii) : ascii :=
  let n := nat_of_ascii c in
  if ((65 <=? n)%nat && (n <=? 90)%nat)%bool then ascii_of_nat (n + 32) else c.

Fixpoint toLowerCase (s : string) : string :=
  match s with
  | EmptyString => EmptyString
  | String c s' => String (lower_ascii c) (toLowerCase s')
  end.

(** The text of ASCII characters: every code unit is below 128. *)
Definition is_ascii (c : ascii) : bool := (nat_of_ascii c <? 128)%nat.

Fixpoint ascii_text (s : string) : bool :=
  match s with
  | EmptyString => true
  | String c s' => is_ascii c && ascii_text s'
  end.

(** [s.includes(t)]: [t] occurs in [s] as a contiguous substring. *)
Fixpoint includes (s t : string) : bool :=
  String.prefix t s ||
  match s with
  | EmptyString => false
  | String _ s' => includes s' t
  end.

(** [arr.includes(x)] on an array of strings (SameValueZero is string
    equality there). *)
Definition array_includes (arr : list string) (x : string) : bool :=
  existsb (String.eqb x) arr.

(** *** Truthiness and the operators built on it *)

Definition truthy (v : JsValue) : bool :=
  match v with
  | VUndefined | VNull => false
  | VBool b => b
  | VNumber n => number_truthy n
  | VString s => negb (is_empty s)
  | VArray _ | VObject _ | VObjectId _ => true
  end.

(** [a || b] *)
Definition js_or (a b : JsValue) : JsValue := if truthy a then a else b.

Definition nullish (v : JsValue) : bool :=
  match v with
  | VUndefined | VNull => true
  | _ => false
  end.

(** [typeof v === "number"] *)
Definition is_number (v : JsValue) : bool :=
  match v with
  | VNumber _ => true
  | _ => false
  end.

(** *** Property access

    The property names that occur in the code ([title], [fields], [$oid],
    [Apartment Name], ...) are names of data properties only: none of them is
    a built-in member of strings, arrays or [Object.prototype].  For such a
    name, reading it off a primitive, an array or an [ObjectId] yields
    [undefined]. *)

Fixpoint lookup_prop (k : string) (props : list (string * JsValue)) : JsValue :=
  match props with
  | [] => VUndefined
  | (k', v) :: rest => if String.eqb k k' then v else lookup_prop k rest
  end.

(** [v?.k] and [v?.[k]]: never throws. *)
Definition opt_member (v : JsValue) (k : string) : JsValue :=
  match v with
  | VObject props => lookup_prop k props
  | _ => VUndefined
  end.

(** [v.k] and [v[k]]: a TypeError on [undefined] and [null] (the message
    is worded as V8 words it). *)
Definition member (v : JsValue) (k : string) : Throws JsValue :=
  match v with
  | VUndefined => TypeError ("Cannot read properties of undefined (reading '" ++ k ++ "')")
  | VNull => TypeError ("Cannot read properties of null (reading '" ++ k ++ "')")
  | _ => ret (opt_member v k)
  end.

(** [v?.[0]]: the first element of an array, the first character of a
    string, the property ["0"] of an object. *)
Definition opt_first (v : JsValue) : JsValue :=
  match v with
  | VArray (x :: _) => x
  | VString (String c _) => VString (String c EmptyString)
  | VObject props => lookup_prop "0" props
  | _ => VUndefined
  end.

(** *** JSON transport

    [toJSON v] is what [JSON.parse(JSON.stringify(v))] reads back: an
    [ObjectId] becomes its hexadecimal string, a non-finite number becomes
    [null], [undefined] inside an array becomes [null].  A property holding
    [undefined] is not transmitted; the model keeps its entry, which reads as
    [undefined] exactly as the missing property does. *)

Definition is_finite (n : float) : bool :=
  negb (is_nan n) && negb (PrimFloat.eqb (PrimFloat.abs n) PrimFloat.infinity).

Fixpoint toJSON (v : JsValue) : JsValue :=
  match v with
  | VUndefined => VUndefined
  | VNull => VNull
  | VBool b => VBool b
  | VNumber n => if is_finite n then VNumber n else VNull
  | VString s => VString s
  | VArray elems =>
      VArray (map (fun x => match toJSON x with
                            | VUndefined => VNull
                            | y => y
                            end) elems)
  | VObject props => VObject (map (fun kv => (fst kv, toJSON (snd kv))) props)
  | VObjectId oid => VString (toHexString oid)
  end.

(** An array element as it reads back from JSON. *)
Definition json_element (x : JsValue) : JsValue :=
  match toJSON x with
  | VUndefined => VNull
  | y => y
  end.

End Js.

(** ** The MongoDB driver, the environment and the HTTP types

    None of this is code of the repository: the driver's behaviour is a
    parameter ([Driver]), over which every statement below quantifies. *)

Module Mongo.
Import Js.

(** A document of the type the driver declares for what [collection.find()]
    yields ([WithId<Document>]): an [ObjectId] under [_id] and arbitrary
    further properties. *)
Record WithId : Type := mkDoc { _id : ObjectId; own : list (string * JsValue) }.

(** A document as [collection.find()] yields it at run time.  The declared
    type is erased, and the database accepts an [_id] of any kind: a
    document inserted with [_id: "listing-1"] comes back with that string
    under [_id]. *)
Record Document : Type := mkDocument {
  doc_id : JsValue;
  doc_own : list (string * JsValue)
}.


(** A document of the declared type, as it is stored. *)
Definition stored (property : WithId) : Document :=
  mkDocument (VObjectId (_id property)) (own property).

(** A stored document as a value, the way [NextResponse.json] receives it. *)
Definition document_value (d : Document) : JsValue :=
  VObject (("_id", doc_id d) :: doc_own d).

(** [property.name] and [property["name"]] for a name other than [_id]. *)
Definition field (property : WithId) (name : string) : JsValue :=
  lookup_prop name (own property).

(** The document as a value, the way [NextResponse.json] receives it. *)
Definition doc_value (property : WithId) : JsValue :=
  VObject (("_id", VObjectId (_id property)) :: own property).

(** The handle built by [new MongoClient(uri)]. *)
Record MongoClient : Type := mkClient { client_uri : string }.

(** What the driver and the database do:
    - [construct uri] is the exception [new MongoClient(uri)] raises, if any;
    - [connect client] is the rejection of [client.connect()], if any;
    - [contents client db coll] is the collection in natural order, or the
      rejection of the query. *)
Record Driver : Type := mkDriver {
  construct : string -> option Thrown;
  connect : MongoClient -> option Thrown;
  contents : MongoClient -> string -> string -> Throws (list Document)
}.

(** [process.env] as far as the code reads it. *)
Record Env : Type := mkEnv { MONGODB_URI : option string }.

(** [process.env.MONGODB_URI + suffix]: string concatenation, in which an
    [undefined] left operand is converted to the string ["undefined"]. *)
Definition env_plus (v : option string) (suffix : string) : string :=
  match v with
  | Some s => s ++ suffix
  | None => "undefined" ++ suffix
  end.

(** A cursor: the pending query and its limit, [0] meaning no limit. *)
Record FindCursor : Type := mkCursor {
  cursor_source : Throws (list Document);
  cursor_limit : nat
}.

Record Collection : Type := mkCollection {
  coll_client : MongoClient;
  coll_db : string;
  coll_name : string
}.

Definition collection (client : MongoClient) (db name : string) : Collection :=
  mkCollection client db name.

(** [collection.find({})]: every document matches the empty filter. *)
Definition find (drv : Driver) (c : Collection) : FindCursor :=
  mkCursor (contents drv (coll_client c) (coll_db c) (coll_name c)) 0.

Definition limit (n : nat) (cur : FindCursor) : FindCursor :=
  mkCursor (cursor_source cur) n.

Definition toArray (cur : FindCursor) : Throws (list Document) :=
  bind (cursor_source cur) (fun docs =>
    ret (match cursor_limit cur with
         | O => docs
         | S _ => firstn (cursor_limit cur) docs
         end)).

(** [await client.connect()] *)
Definition await_connect (drv : Driver) (client : MongoClient) : Throws unit :=
  match connect drv client with
  | Some e => throw e
  | None => ret tt
  end.

(** The incoming request. *)
Record NextRequest : Type := mkRequest {
  req_method : string;
  req_url : string;
  req_headers : list (string * string)
}.

Record NextResponse : Type := mkResponse { status : nat; body : JsValue }.

(** [NextResponse.json(body, init)]: the status defaults to 200. *)
Definition NextResponse_json (b : JsValue) (init_status : option nat) : NextResponse :=
  mkResponse (match init_status with Some s => s | None => 200 end) b.

(** A route handler: the module-level cache goes in and comes out. *)
Definition Handler : Type :=
  Driver -> Env -> option MongoClient -> NextRequest -> NextResponse * option MongoClient.

(** Successive invocations in one process: each finds the cache as the
    previous one left it. *)
Fixpoint serve (handler : Handler) (drv : Driver) (env : Env)
    (cachedClient : option MongoClient) (requests : list NextRequest)
  : list NextResponse * option MongoClient :=
  match requests with
  | [] => ([], cachedClient)
  | request :: rest =>
      let (response, cachedClient') := handler drv env cachedClient request in
      let (responses, final) := serve handler drv env cachedClient' rest in
      (response :: responses, final)
  end.

End Mongo.

(** ** The fetch endpoint, first variant (nested response schema) *)

Module Part000.
Import Js Mongo.

(** [const uri = process.env.MONGODB_URI + "&ssl=false"] *)
Definition uri (env : Env) : string := env_plus (MONGODB_URI env) "&ssl=false".

(** The module-level [cachedClient] is threaded through as state. *)
Definition getMongoClient (drv : Driver) (env : Env) (cachedClient : option MongoClient)
  : Throws MongoClient * option MongoClient :=
  match cachedClient with
  | Some c => (ret c, cachedClient)
  | None =>
      if is_empty (uri env)
      then (throw (ThrownError "MONGODB_URI environment variable not configured"), None)
      else match construct drv (uri env) with
           | Some e => (throw e, None)
           | None => let client := mkClient (uri env) in (ret client, Some client)
           end
  end.

(** The callback of [properties.map(...)] on a document of the declared
    type, whose [_id] is an [ObjectId]. *)
Definition formatProperty (property : WithId) : JsValue :=
  VObject
    [ ("_id", VObject [("$oid", VString (toHexString (_id property)))]);
      ("title", field property "title");
      ("author_id", field property "author_id");
      ("meta_description", field property "meta_description");
      ("project_description", field property "project_description");
      ("fields", VObject
         [ ("price_sqft", field property "price_sqft");
           ("latitude", field property "latitude");
           ("longitude", field property "longitude");
           ("address", field property "address");
           ("project_highlights", field property "project_highlights");
           ("rera_url", field property "rera_url");
           ("rera_id", field property "rera_id");
           ("about_project", field property "about_project");
           ("nearest_school", field property "nearest_school");
           ("nearest_bank", field property "nearest_bank");
           ("nearest_hospital", field property "nearest_hospital");
           ("starting_bsp", field property "starting_bsp");
           ("project_detail", field property "project_detail");
           ("listing_url", field property "listing_url");
           ("photo_url", field property "photo_url");
           ("amenities", js_or (field property "amenities") (VArray [])) ]);
      ("taxonomies", VObject
         [ ("at_biz_dir-category", js_or (field property "at_biz_dir-category") (VArray []));
           ("at_biz_dir-location", js_or (field property "at_biz_dir-location") (VArray []));
           ("at_biz_dir-tags", js_or (field property "at_biz_dir-tags") (VArray [])) ]);
      ("scraped_at", field property "scraped_at") ].

(** The callback at run time.  Its first step is the call
    [property._id.toHexString()]: [toHexString] is a method of [ObjectId],
    and on an [_id] of any other kind the call raises a TypeError (worded as
    V8 words it).  Nothing else in the callback can throw. *)
Definition format_document (d : Document) : Throws JsValue :=
  match doc_id d with
  | VObjectId oid => ret (formatProperty (mkDoc oid (doc_own d)))
  | VUndefined => TypeError "Cannot read properties of undefined (reading 'toHexString')"
  | VNull => TypeError "Cannot read properties of null (reading 'toHexString')"
  | _ => TypeError "property._id.toHexString is not a function"
  end.

(** The body of the [try] block; an exception of the callback aborts
    [properties.map(...)]. *)
Definition attempt (drv : Driver) (got : Throws MongoClient) : Throws NextResponse :=
  bind got (fun client =>
  bind (await_connect drv client) (fun _ =>
  bind (toArray (limit 500 (find drv (collection client "proptrust" "listings"))))
       (fun properties =>
  bind (mapM format_document properties) (fun formattedProperties =>
  ret (NextResponse_json (VObject [("documents", VArray formattedProperties)]) None))))).

(** The [catch] clause. *)
Definition on_error (error : Thrown) : NextResponse :=
  NextResponse_json
    (VObject [("error", VString (message_or "Failed to fetch properties" error))])
    (Some 500).

Definition GET (drv : Driver) (env : Env) (cachedClient : option MongoClient)
    (request : NextRequest) : NextResponse * option MongoClient :=
  let (got, cachedClient') := getMongoClient drv env cachedClient in
  (match attempt drv got with
   | inr response => response
   | inl error => on_error error
   end, cachedClient').

End Part000.

(** ** The fetch endpoint, second variant (documents passed through) *)

Module Part001.
Import Js Mongo.

(** [const uri = process.env.MONGODB_URI] *)
Definition uri (env : Env) : option string := MONGODB_URI env.

(** [!uri] holds of [undefined] and of the empty string; past that guard
    [uri] is a non-empty string. *)
Definition getMongoClient (drv : Driver) (env : Env) (cachedClient : option MongoClient)
  : Throws MongoClient * option MongoClient :=
  match cachedClient with
  | Some c => (ret c, cachedClient)
  | None =>
      match uri env with
      | Some s =>
          if is_empty s
          then (throw (ThrownError "MONGODB_URI environment variable not configured"), None)
          else match construct drv s with
               | Some e => (throw e, None)
               | None => let client := mkClient s in (ret client, Some client)
               end
      | None => (throw (ThrownError "MONGODB_URI environment variable not configured"), None)
      end
  end.

(** The body of the [try] block. *)
Definition attempt (drv : Driver) (got : Throws MongoClient) : Throws NextResponse :=
  bind got (fun client =>
  bind (await_connect drv client) (fun _ =>
  bind (toArray (limit 500 (find drv (collection client "ccube_research" "apartment"))))
       (fun properties =>
  ret (NextResponse_json
         (VObject [("documents", VArray (map document_value properties))]) None)))).

(** The [catch] clause. *)
Definition on_error (error : Thrown) : NextResponse :=
  NextResponse_json
    (VObject [("error", VString (message_or "Failed to fetch properties" error))])
    (Some 500).

Definition GET (drv : Driver) (env : Env) (cachedClient : option MongoClient)
    (request : NextRequest) : NextResponse * option MongoClient :=
  let (got, cachedClient') := getMongoClient drv env cachedClient in
  (match attempt drv got with
   | inr response => response
   | inl error => on_error error
   end, cachedClient').

End Part001.

(** ** The browser's side of [fetch] *)

Module Http.
Import Js Mongo.

(** The [Response] that [fetch] resolves to: [response.status],
    [await response.text()] and [await response.json()]. *)
Record Response : Type := mkHttpResponse {
  resp_status : nat;
  resp_text : string;
  resp_json : Throws JsValue
}.

(** [response.ok]: the status is in the range 200-299. *)
Definition ok (response : Response) : bool :=
  (200 <=? resp_status response)%nat && (resp_status response <=? 299)%nat.

(** [`${n}`] for a status code. *)
Definition show_status (n : nat) : string := NilZero.string_of_uint (Nat.to_uint n).

(** The browser receives what the handler sent: the same status, and a body
    that parses to the JSON image of the value given to [NextResponse.json]. *)
Definition delivers (sent : NextResponse) (response : Response) : Prop :=
  resp_status response = status sent /\
  resp_json response = ret (toJSON (body sent)).

End Http.

(** ** The listing view, first variant: [components/property-listings.tsx] *)

Module PropertyListings.
Import Js Http.

(** [interface Property] *)
Record Property : Type := mkProperty {
  _id : string;
  title : string;
  location : string;
  price : string;
  priceSqft : string;
  photoUrl : string;
  listingUrl : string;
  amenities : list string;
  latitude : float;
  longitude : float;
  address : string;
  category : string;
  tags : list string;
  projectHighlights : string;
  reraId : string
}.

(** The object literal the [map] callback builds.  Its fields are computed
    from [doc : any], so all but the two parsed numbers are of type [any]:
    the annotation [Property[]] on [processedData] is not checked. *)
Module Any.
Record Property : Type := mkProperty {
  _id : JsValue;
  title : JsValue;
  location : JsValue;
  price : JsValue;
  priceSqft : JsValue;
  photoUrl : JsValue;
  listingUrl : JsValue;
  amenities : JsValue;
  latitude : float;
  longitude : float;
  address : JsValue;
  category : JsValue;
  tags : JsValue;
  projectHighlights : JsValue;
  reraId : JsValue
}.
End Any.

(** Reading an [any] at the type the interface declares for it. *)
Definition as_string (v : JsValue) : option string :=
  match v with
  | VString s => Some s
  | _ => None
  end.

Fixpoint as_strings (vs : list JsValue) : option (list string) :=
  match vs with
  | [] => Some []
  | v :: vs' =>
      match as_string v, as_strings vs' with
      | Some s, Some ss => Some (s :: ss)
      | _, _ => None
      end
  end.

Definition as_string_array (v : JsValue) : option (list string) :=
  match v with
  | VArray vs => as_strings vs
  | _ => None
  end.

(** The literal seen at type [Property]; [None] when some field does not
    hold a value of its declared type. *)
Definition asProperty (o : Any.Property) : option Property :=
  match as_string (Any._id o), as_string (Any.title o), as_string (Any.location o),
        as_string (Any.price o), as_string (Any.priceSqft o), as_string (Any.photoUrl o),
        as_string (Any.listingUrl o), as_string_array (Any.amenities o),
        as_string (Any.address o), as_string (Any.category o),
        as_string_array (Any.tags o), as_string (Any.projectHighlights o),
        as_string (Any.reraId o) with
  | Some i, Some t, Some l, Some p, Some ps, Some ph, Some lu, Some am,
    Some ad, Some c, Some tg, Some hl, Some r =>
      Some (mkProperty i t l p ps ph lu am (Any.latitude o) (Any.longitude o) ad c tg hl r)
  | _, _, _, _, _, _, _, _, _, _, _, _, _ => None
  end.

Fixpoint asProperties (os : list Any.Property) : option (list Property) :=
  match os with
  | [] => Some []
  | o :: os' =>
      match asProperty o, asProperties os' with
      | Some p, Some ps => Some (p :: ps)
      | _, _ => None
      end
  end.

(** The component's state: one field per [useState]. *)
Record State : Type := mkState {
  properties : list Property;
  filteredProperties : list Property;
  loading : bool;
  error : option string;
  searchTerm : string;
  categoryFilter : string;
  tagFilter : string;
  showFilters : bool
}.

(** The initial values given to [useState]. *)
Definition initial : State := mkState [] [] true None "" "all" "all" false.

Definition setProperties (v : list Property) (st : State) : State :=
  mkState v (filteredProperties st) (loading st) (error st) (searchTerm st)
          (categoryFilter st) (tagFilter st) (showFilters st).
Definition setFilteredProperties (v : list Property) (st : State) : State :=
  mkState (properties st) v (loading st) (error st) (searchTerm st)
          (categoryFilter st) (tagFilter st) (showFilters st).
Definition setLoading (v : bool) (st : State) : State :=
  mkState (properties st) (filteredProperties st) v (error st) (searchTerm st)
          (categoryFilter st) (tagFilter st) (showFilters st).
Definition setError (v : option string) (st : State) : State :=
  mkState (properties st) (filteredProperties st) (loading st) v (searchTerm st)
          (categoryFilter st) (tagFilter st) (showFilters st).
Definition setSearchTerm (v : string) (st : State) : State :=
  mkState (properties st) (filteredProperties st) (loading st) (error st) v
          (categoryFilter st) (tagFilter st) (showFilters st).
Definition setCategoryFilter (v : string) (st : State) : State :=
  mkState (properties st) (filteredProperties st) (loading st) (error st) (searchTerm st)
          v (tagFilter st) (showFilters st).
Definition setTagFilter (v : string) (st : State) : State :=
  mkState (properties st) (filteredProperties st) (loading st) (error st) (searchTerm st)
          (categoryFilter st) v (showFilters st).

Section Mapping.

(** The global [parseFloat]. *)
Variable parseFloat : JsValue -> float.

(** [cond ? parseFloat(doc.fields.<name>) : 0] with
    [cond = doc.fields?.<name>] *)
Definition parsed_field (doc : JsValue) (name : string) : Throws float :=
  let* fields := member doc "fields" in
  if truthy (opt_member fields name)
  then let* v := member fields name in
       ret (parseFloat v)
  else ret 0%float.

(** The callback of [data.documents.map(...)].  Each property of [doc] is
    read once and named; the reads have no effect, so reading again, as the
    source does, gives the same value. *)
Definition processDoc (doc : JsValue) : Throws Any.Property :=
  let* id := member doc "_id" in
  let* title := member doc "title" in
  let* taxonomies := member doc "taxonomies" in
  let* fields := member doc "fields" in
  let* latitude := parsed_field doc "latitude" in
  let* longitude := parsed_field doc "longitude" in
  ret {| Any._id := js_or (opt_member id "$oid") id;
         Any.title := js_or title (VString "Unknown");
         Any.location :=
           js_or (opt_first (opt_member taxonomies "at_biz_dir-location")) (VString "Unknown");
         Any.price := js_or (opt_member fields "starting_bsp") (VString "N/A");
         Any.priceSqft := js_or (opt_member fields "price_sqft") (VString "N/A");
         Any.photoUrl := js_or (opt_member fields "photo_url") (VString "");
         Any.listingUrl := js_or (opt_member fields "listing_url") (VString "#");
         Any.amenities := js_or (opt_member fields "amenities") (VArray []);
         Any.latitude := latitude;
         Any.longitude := longitude;
         Any.address := js_or (opt_member fields "address") (VString "N/A");
         Any.category :=
           js_or (opt_first (opt_member taxonomies "at_biz_dir-category")) (VString "Unknown");
         Any.tags := js_or (opt_member taxonomies "at_biz_dir-tags") (VArray []);
         Any.projectHighlights := js_or (opt_member fields "project_highlights") (VString "N/A");
         Any.reraId := js_or (opt_member fields "rera_id") (VString "N/A") |}.

(** [data.documents.map(...)], after the check [if (!data.documents)]. *)
Definition processedData (data : JsValue) : Throws (list Any.Property) :=
  let* documents := member data "documents" in
  if negb (truthy documents)
  then throw (ThrownError "No documents found in response")
  else match documents with
       | VArray docs => mapM processDoc docs
       | _ => TypeError "data.documents.map is not a function"
       end.

(** The [try] block of [fetchProperties], up to the records it computes;
    [fetched] is the outcome of [await fetch("/api/properties")]. *)
Definition fetch_attempt (fetched : Throws Response) : Throws (list Any.Property) :=
  let* response := fetched in
  if negb (ok response)
  then throw (ThrownError ("Failed to fetch data: " ++ show_status (resp_status response)
                             ++ " - " ++ resp_text response))
  else let* data := resp_json response in
       processedData data.

(** The state once [fetchProperties] has run to its end.  [None] stands for
    a run in which the records do not have the declared type [Property]. *)
Definition fetchProperties (fetched : Throws Response) (st : State) : option State :=
  let st := setError None (setLoading true st) in
  match fetch_attempt fetched with
  | inr processed =>
      match asProperties processed with
      | Some records =>
          Some (setLoading false (setFilteredProperties records (setProperties records st)))
      | None => None
      end
  | inl err =>
      Some (setLoading false (setError (Some (message_or "Unknown error occurred" err)) st))
  end.

End Mapping.

(** The three tests of the [filter] callback. *)
Definition matchesSearch (searchTerm : string) (property : Property) : bool :=
  includes (toLowerCase (title property)) (toLowerCase searchTerm) ||
  includes (toLowerCase (location property)) (toLowerCase searchTerm) ||
  includes (toLowerCase (address property)) (toLowerCase searchTerm).

Definition matchesCategory (categoryFilter : string) (property : Property) : bool :=
  String.eqb categoryFilter "all" || String.eqb (category property) categoryFilter.

Definition matchesTag (tagFilter : string) (property : Property) : bool :=
  String.eqb tagFilter "all" || array_includes (tags property) tagFilter.

(** The callback of [properties.filter(...)]. *)
Definition keeps (st : State) (property : Property) : bool :=
  matchesSearch (searchTerm st) property &&
  matchesCategory (categoryFilter st) property &&
  matchesTag (tagFilter st) property.

Definition filterProperties (st : State) : State :=
  let filtered := List.filter (keeps st) (properties st) in
  setFilteredProperties filtered st.

(** What the component returns. *)
Inductive Screen : Type :=
| LoadingScreen
| ErrorScreen (message : string)
| EmptyState
| Cards (cards : list Property).

Definition render (st : State) : Screen :=
  if loading st then LoadingScreen
  else match error st with
       | Some (String c m) => ErrorScreen (String c m)
       | _ =>
           match filteredProperties st with
           | [] => EmptyState
           | p :: ps => Cards (p :: ps)
           end
       end.

Definition setShowFilters (v : bool) (st : State) : State :=
  mkState (properties st) (filteredProperties st) (loading st) (error st) (searchTerm st)
          (categoryFilter st) (tagFilter st) v.

(** What the user can do to the controls. *)
Inductive Edit : Type :=
| TypeSearch (value : string)
| SelectCategory (value : string)
| SelectTag (value : string)
| ToggleFilters.

(** The [onChange] and [onClick] handlers, followed by the effect whose
    dependencies are [searchTerm], [categoryFilter], [tagFilter] and
    [properties]: after an edit of one of the three controls it runs
    [filterProperties]; showing or hiding the panel touches none of them. *)
Definition edit (e : Edit) (st : State) : State :=
  match e with
  | TypeSearch value => filterProperties (setSearchTerm value st)
  | SelectCategory value => filterProperties (setCategoryFilter value st)
  | SelectTag value => filterProperties (setTagFilter value st)
  | ToggleFilters => setShowFilters (negb (showFilters st)) st
  end.

(** The state after a fetch has ended and the effect has run on the new
    [properties]. *)
Definition loaded (parseFloat : JsValue -> float) (fetched : Throws Response) (st : State)
  : option State :=
  option_map filterProperties (fetchProperties parseFloat fetched st).

(** The filtered list is up to date with the stored list and the controls. *)
Definition settled (st : State) : Prop :=
  filteredProperties st = List.filter (keeps st) (properties st).

End PropertyListings.

(** ** The listing view, second variant (flat apartment schema) *)

Module Part002.
Import Js Http.

(** [interface Property]; a quoted field name such as ["Apartment Name"] is
    written with an underscore. *)
Record Property : Type := mkProperty {
  _id : string;
  Apartment_Name : string;
  Location : string;
  Minimum_Price : float;
  Maximum_Price : float;
  Per_Sqft_Cost : float;
  Number_of_Units : float;
  Total_Area : string;
  Project_Status : string;
  Photo_URL : string;
  Listing_URL : string;
  Amenities : list string;
  Latitude : float;
  Longitude : float
}.

(** The object literal of the [map] callback, before it is taken to be a
    [Property]; the numeric fields are numbers whatever [doc] holds. *)
Module Any.
Record Property : Type := mkProperty {
  _id : JsValue;
  Apartment_Name : JsValue;
  Location : JsValue;
  Minimum_Price : float;
  Maximum_Price : float;
  Per_Sqft_Cost : float;
  Number_of_Units : float;
  Total_Area : JsValue;
  Project_Status : JsValue;
  Photo_URL : JsValue;
  Listing_URL : JsValue;
  Amenities : JsValue;
  Latitude : float;
  Longitude : float
}.
End Any.

Definition as_string := PropertyListings.as_string.
Definition as_string_array := PropertyListings.as_string_array.

(** The literal seen at type [Property]; [None] when some field does not
    hold a value of its declared type. *)
Definition asProperty (o : Any.Property) : option Property :=
  match as_string (Any._id o), as_string (Any.Apartment_Name o), as_string (Any.Location o),
        as_string (Any.Total_Area o), as_string (Any.Project_Status o),
        as_string (Any.Photo_URL o), as_string (Any.Listing_URL o),
        as_string_array (Any.Amenities o) with
  | Some i, Some n, Some l, Some ta, Some ps, Some ph, Some lu, Some am =>
      Some (mkProperty i n l (Any.Minimum_Price o) (Any.Maximum_Price o)
              (Any.Per_Sqft_Cost o) (Any.Number_of_Units o) ta ps ph lu am
              (Any.Latitude o) (Any.Longitude o))
  | _, _, _, _, _, _, _, _ => None
  end.

Fixpoint asProperties (os : list Any.Property) : option (list Property) :=
  match os with
  | [] => Some []
  | o :: os' =>
      match asProperty o, asProperties os' with
      | Some p, Some ps => Some (p :: ps)
      | _, _ => None
      end
  end.

(** The component's state: one field per [useState]. *)
Record State : Type := mkState {
  properties : list Property;
  filteredProperties : list Property;
  loading : bool;
  error : option string;
  searchTerm : string;
  statusFilter : string;
  priceRange : float * float;
  showFilters : bool
}.

(** The initial values given to [useState]. *)
Definition initial : State :=
  mkState [] [] true None "" "all" (0%float, 100000000%float) false.

Definition setProperties (v : list Property) (st : State) : State :=
  mkState v (filteredProperties st) (loading st) (error st) (searchTerm st)
          (statusFilter st) (priceRange st) (showFilters st).
Definition setFilteredProperties (v : list Property) (st : State) : State :=
  mkState (properties st) v (loading st) (error st) (searchTerm st)
          (statusFilter st) (priceRange st) (showFilters st).
Definition setLoading (v : bool) (st : State) : State :=
  mkState (properties st) (filteredProperties st) v (error st) (searchTerm st)
          (statusFilter st) (priceRange st) (showFilters st).
Definition setError (v : option string) (st : State) : State :=
  mkState (properties st) (filteredProperties st) (loading st) v (searchTerm st)
          (statusFilter st) (priceRange st) (showFilters st).
Definition setSearchTerm (v : string) (st : State) : State :=
  mkState (properties st) (filteredProperties st) (loading st) (error st) v
          (statusFilter st) (priceRange st) (showFilters st).
Definition setStatusFilter (v : string) (st : State) : State :=
  mkState (properties st) (filteredProperties st) (loading st) (error st) (searchTerm st)
          v (priceRange st) (showFilters st).
Definition setPriceRange (v : float * float) (st : State) : State :=
  mkState (properties st) (filteredProperties st) (loading st) (error st) (searchTerm st)
          (statusFilter st) v (showFilters st).

Section Mapping.

(** [Number.parseInt] and [Number.parseFloat]. *)
Variable parseInt : JsValue -> float.
Variable parseFloat : JsValue -> float.

(** [doc[name]?.<tag> ? parse(doc[name].<tag>)
       : typeof doc[name] === "number" ? doc[name] : 0] *)
Definition unboxed (parse : JsValue -> float) (doc : JsValue) (name tag : string)
  : Throws float :=
  let* v := member doc name in
  if truthy (opt_member v tag)
  then let* boxed := member v tag in
       ret (parse boxed)
  else match v with
       | VNumber n => ret n
       | _ => ret 0%float
       end.

(** The callback of [data.documents.map(...)].  Each property of [doc] is
    read once and named; the reads have no effect. *)
Definition processDoc (doc : JsValue) : Throws Any.Property :=
  let* id := member doc "_id" in
  let* name := member doc "Apartment Name" in
  let* location := member doc "Location" in
  let* minimum := unboxed parseInt doc "Minimum Price" "$numberInt" in
  let* maximum := unboxed parseInt doc "Maximum Price" "$numberInt" in
  let* sqft := unboxed parseFloat doc "Per Sqft Cost" "$numberDouble" in
  let* units := unboxed parseInt doc "Number of Units" "$numberInt" in
  let* area := member doc "Total Area" in
  let* project_status := member doc "Project Status" in
  let* photo := member doc "Photo URL" in
  let* listing := member doc "Listing URL" in
  let* amenities := member doc "Amenities" in
  let* latitude := unboxed parseFloat doc "Latitude" "$numberDouble" in
  let* longitude := unboxed parseFloat doc "Longitude" "$numberDouble" in
  ret {| Any._id := js_or (opt_member id "$oid") id;
         Any.Apartment_Name := js_or name (VString "Unknown");
         Any.Location := js_or location (VString "Unknown");
         Any.Minimum_Price := minimum;
         Any.Maximum_Price := maximum;
         Any.Per_Sqft_Cost := sqft;
         Any.Number_of_Units := units;
         Any.Total_Area := js_or area (VString "N/A");
         Any.Project_Status := js_or project_status (VString "Unknown");
         Any.Photo_URL := js_or photo (VString "");
         Any.Listing_URL := js_or listing (VString "#");
         Any.Amenities := js_or amenities (VArray []);
         Any.Latitude := latitude;
         Any.Longitude := longitude |}.

(** [data.documents.map(...)], after the check [if (!data.documents)]. *)
Definition processedData (data : JsValue) : Throws (list Any.Property) :=
  let* documents := member data "documents" in
  if negb (truthy documents)
  then throw (ThrownError "No documents found in response")
  else match documents with
       | VArray docs => mapM processDoc docs
       | _ => TypeError "data.documents.map is not a function"
       end.

(** The [try] block of [fetchProperties], up to the records it computes. *)
Definition fetch_attempt (fetched : Throws Response) : Throws (list Any.Property) :=
  let* response := fetched in
  if negb (ok response)
  then throw (ThrownError ("Failed to fetch data: " ++ show_status (resp_status response)
                             ++ " - " ++ resp_text response))
  else let* data := resp_json response in
       processedData data.

(** The state once [fetchProperties] has run to its end.  [None] stands for
    a run in which the records do not have the declared type [Property]. *)
Definition fetchProperties (fetched : Throws Response) (st : State) : option State :=
  let st := setError None (setLoading true st) in
  match fetch_attempt fetched with
  | inr processed =>
      match asProperties processed with
      | Some records =>
          Some (setLoading false (setFilteredProperties records (setProperties records st)))
      | None => None
      end
  | inl err =>
      Some (setLoading false (setError (Some (message_or "Unknown error occurred" err)) st))
  end.

End Mapping.

(** The three tests of the [filter] callback. *)
Definition matchesSearch (searchTerm : string) (property : Property) : bool :=
  includes (toLowerCase (Apartment_Name property)) (toLowerCase searchTerm) ||
  includes (toLowerCase (Location property)) (toLowerCase searchTerm).

Definition matchesStatus (statusFilter : string) (property : Property) : bool :=
  String.eqb statusFilter "all" || String.eqb (Project_Status property) statusFilter.

(** [price >= priceRange[0] && price <= priceRange[1]] on IEEE doubles. *)
Definition matchesPrice (priceRange : float * float) (property : Property) : bool :=
  let price := Minimum_Price property in
  PrimFloat.leb (fst priceRange) price && PrimFloat.leb price (snd priceRange).

(** The callback of [properties.filter(...)]. *)
Definition keeps (st : State) (property : Property) : bool :=
  matchesSearch (searchTerm st) property &&
  matchesStatus (statusFilter st) property &&
  matchesPrice (priceRange st) property.

Definition filterProperties (st : State) : State :=
  let filtered := List.filter (keeps st) (properties st) in
  setFilteredProperties filtered st.

(** What the component returns. *)
Inductive Screen : Type :=
| LoadingScreen
| ErrorScreen (message : string)
| EmptyState
| Cards (cards : list Property).

Definition render (st : State) : Screen :=
  if loading st then LoadingScreen
  else match error st with
       | Some (String c m) => ErrorScreen (String c m)
       | _ =>
           match filteredProperties st with
           | [] => EmptyState
           | p :: ps => Cards (p :: ps)
           end
       end.

Definition setShowFilters (v : bool) (st : State) : State :=
  mkState (properties st) (filteredProperties st) (loading st) (error st) (searchTerm st)
          (statusFilter st) (priceRange st) v.

(** What the user can do to the controls; [Number(e.target.value)] has been
    applied to the two bounds. *)
Inductive Edit : Type :=
| TypeSearch (value : string)
| SelectStatus (value : string)
| TypeMinimum (value : float)
| TypeMaximum (value : float)
| ToggleFilters.

(** The [onChange] and [onClick] handlers, followed by the effect whose
    dependencies are [searchTerm], [statusFilter], [priceRange] and
    [properties]. *)
Definition edit (e : Edit) (st : State) : State :=
  match e with
  | TypeSearch value => filterProperties (setSearchTerm value st)
  | SelectStatus value => filterProperties (setStatusFilter value st)
  | TypeMinimum value => filterProperties (setPriceRange (value, snd (priceRange st)) st)
  | TypeMaximum value => filterProperties (setPriceRange (fst (priceRange st), value) st)
  | ToggleFilters => setShowFilters (negb (showFilters st)) st
  end.

(** The state after a fetch has ended and the effect has run on the new
    [properties]. *)
Definition loaded (parseInt parseFloat : JsValue -> float) (fetched : Throws Response)
    (st : State) : option State :=
  option_map filterProperties (fetchProperties parseInt parseFloat fetched st).

(** The filtered list is up to date with the stored list and the controls. *)
Definition settled (st : State) : Prop :=
  filteredProperties st = List.filter (keeps st) (properties st).

End Part002.

(** ** Vocabulary of the specification *)

Module Spec.
Import Js Mongo Http.

(** [term] occurs in [s] as a contiguous substring. *)
Definition contains (s term : string) : Prop :=
  exists pre post : string, s = (pre ++ term ++ post)%string.

(** Two characters are the same letter: they are the same character, or one
    is a capital letter [A]-[Z] (codes 65 to 90) and the other the small
    letter that belongs to it (32 further on). *)
Inductive same_letter : ascii -> ascii -> Prop :=
| same_character c : same_letter c c
| capital_and_small n :
    (65 <= n <= 90)%nat -> same_letter (ascii_of_nat n) (ascii_of_nat (n + 32))
| small_and_capital n :
    (65 <= n <= 90)%nat -> same_letter (ascii_of_nat (n + 32)) (ascii_of_nat n).

(** Two strings read the same when the case of the letters is disregarded. *)
Inductive same_letters : string -> string -> Prop :=
| same_letters_empty : same_letters EmptyString EmptyString
| same_letters_next c d s t :
    same_letter c d -> same_letters s t -> same_letters (String c s) (String d t).

(** [term] occurs in [s], the case of the letters disregarded: a contiguous
    part of [s] reads as [term] does. *)
Definition contains_ignoring_case (s term : string) : Prop :=
  exists pre part post : string,
    s = (pre ++ part ++ post)%string /\ same_letters part term.

(** The two shapes of response body the interface section names. *)
Definition documents_body (docs : list JsValue) : JsValue :=
  VObject [("documents", VArray docs)].

Definition error_body (message : string) : JsValue :=
  VObject [("error", VString message)].

Definition is_documents_response (r : NextResponse) : Prop :=
  status r = 200 /\ exists docs, body r = documents_body docs.

Definition is_error_response (r : NextResponse) : Prop :=
  status r = 500 /\ exists message, body r = error_body message.


(** *** First view *)




(** The fields the first view searches hold ASCII text. *)
Definition listing_ascii (p : PropertyListings.Property) : Prop :=
  ascii_text (PropertyListings.title p) = true /\
  ascii_text (PropertyListings.location p) = true /\
  ascii_text (PropertyListings.address p) = true.

(** The search test with the case of the letters disregarded: the term
    occurs, up to case, in the title, the location or the address. *)
Definition listing_search (term : string) (p : PropertyListings.Property) : Prop :=
  contains_ignoring_case (PropertyListings.title p) term \/
  contains_ignoring_case (PropertyListings.location p) term \/
  contains_ignoring_case (PropertyListings.address p) term.

(** The search test with the case of the letters taken into account. *)
Definition listing_search_exact (term : string) (p : PropertyListings.Property) : Prop :=
  contains (PropertyListings.title p) term \/
  contains (PropertyListings.location p) term \/
  contains (PropertyListings.address p) term.

Definition listing_category (selected : string) (p : PropertyListings.Property) : Prop :=
  selected = "all" \/ PropertyListings.category p = selected.

Definition listing_tag (selected : string) (p : PropertyListings.Property) : Prop :=
  selected = "all" \/ In selected (PropertyListings.tags p).

(** The records the first view is to show under the controls of [st]. *)
Definition listing_kept (st : PropertyListings.State) (p : PropertyListings.Property) : Prop :=
  listing_search (PropertyListings.searchTerm st) p /\
  listing_category (PropertyListings.categoryFilter st) p /\
  listing_tag (PropertyListings.tagFilter st) p.

Definition listing_kept_exact (st : PropertyListings.State) (p : PropertyListings.Property)
  : Prop :=
  listing_search_exact (PropertyListings.searchTerm st) p /\
  listing_category (PropertyListings.categoryFilter st) p /\
  listing_tag (PropertyListings.tagFilter st) p.




(** *** Second view *)





(** The fields the second view searches hold ASCII text. *)
Definition apartment_ascii (p : Part002.Property) : Prop :=
  ascii_text (Part002.Apartment_Name p) = true /\
  ascii_text (Part002.Location p) = true.

Definition apartment_search (term : string) (p : Part002.Property) : Prop :=
  contains_ignoring_case (Part002.Apartment_Name p) term \/
  contains_ignoring_case (Part002.Location p) term.

Definition apartment_search_exact (term : string) (p : Part002.Property) : Prop :=
  contains (Part002.Apartment_Name p) term \/
  contains (Part002.Location p) term.

Definition apartment_status (selected : string) (p : Part002.Property) : Prop :=
  selected = "all" \/ Part002.Project_Status p = selected.

(** The minimum price lies in the closed range, in the order of IEEE
    doubles. *)
Definition apartment_price (range : float * float) (p : Part002.Property) : Prop :=
  PrimFloat.leb (fst range) (Part002.Minimum_Price p) = true /\
  PrimFloat.leb (Part002.Minimum_Price p) (snd range) = true.

Definition apartment_kept (st : Part002.State) (p : Part002.Property) : Prop :=
  apartment_search (Part002.searchTerm st) p /\
  apartment_status (Part002.statusFilter st) p /\
  apartment_price (Part002.priceRange st) p.

Definition apartment_kept_exact (st : Part002.State) (p : Part002.Property) : Prop :=
  apartment_search_exact (Part002.searchTerm st) p /\
  apartment_status (Part002.statusFilter st) p /\
  apartment_price (Part002.priceRange st) p.

End Spec.

(** ** Concrete drivers, documents and states used in the examples *)

Module Scenario.
Import Js Mongo Http.

Definition quote : string := String (ascii_of_nat 34) EmptyString.

(** The message of the driver's parse error for a connection string without
    a MongoDB scheme. *)
Definition invalid_scheme : string :=
  "Invalid scheme, expected connection string to start with " ++
  quote ++ "mongodb://" ++ quote ++ " or " ++ quote ++ "mongodb+srv://" ++ quote.

(** A driver that, like the real one, refuses a connection string without a
    MongoDB scheme, and otherwise serves the stored documents [docs] from
    every collection. *)
Definition storing (docs : list Document) : Driver :=
  mkDriver
    (fun uri =>
       if String.prefix "mongodb://" uri || String.prefix "mongodb+srv://" uri
       then None
       else Some (ThrownError invalid_scheme))
    (fun _ => None)
    (fun _ _ _ => ret docs).

(** The same, for documents of the declared type. *)
Definition serving (docs : list WithId) : Driver := storing (map stored docs).

Definition configured : Env := mkEnv (Some "mongodb://db.example/?retryWrites=true").
Definition unconfigured : Env := mkEnv None.

Definition request : NextRequest := mkRequest "GET" "/api/properties" [].
Definition other_request : NextRequest :=
  mkRequest "GET" "/api/properties?limit=9999&skip=500" [("x-page", "2")].

(** A listing without [amenities], and an apartment without [Amenities]. *)
Definition bare_listing : WithId :=
  mkDoc (mkObjectId "65a1f0c2e4b0a1b2c3d4e5f6") [("title", VString "Villa Serena")].

Definition bare_apartment : WithId :=
  mkDoc (mkObjectId "65a1f0c2e4b0a1b2c3d4e5f7") [("Apartment Name", VString "Lake View")].

(** The browser's reading of a response of the handler. *)
Definition received (sent : NextResponse) : Response :=
  mkHttpResponse (status sent) "" (ret (toJSON (body sent))).

(** A parser for the examples: it returns a number as it is. *)
Definition parse_number (v : JsValue) : float :=
  match v with
  | VNumber n => n
  | _ => PrimFloat.nan
  end.

(** One record of the first view, and a state that searches for its title in
    capitals. *)
Definition villa : PropertyListings.Property :=
  PropertyListings.mkProperty "65a1f0c2e4b0a1b2c3d4e5f6" "Villa" "Goa" "N/A" "N/A" "" "#" []
    0%float 0%float "N/A" "Residential" [] "N/A" "N/A".

Definition searching_villa : PropertyListings.State :=
  PropertyListings.mkState [villa] [villa] false None "VILLA" "all" "all" false.

(** One record of the second view, and a state that searches for its name in
    capitals. *)
Definition lake_view : Part002.Property :=
  Part002.mkProperty "65a1f0c2e4b0a1b2c3d4e5f7" "Lake View" "Pune" 5000000%float
    7500000%float 6500%float 120%float "N/A" "Ready to Move" "" "#" [] 0%float 0%float.

Definition searching_lake : Part002.State :=
  Part002.mkState [lake_view] [lake_view] false None "LAKE" "all"
    (0%float, 100000000%float) false.

End Scenario.

(** ** The cards of the first view *)

Module ListingCard.
Import Js PropertyListings.

(** The amenity chips of a card: [amenities.slice(0, 4)], and the badge
    [+{amenities.length - 4} more] when [amenities.length > 4]. *)
Record AmenityChips : Type := mkChips { chips : list string; more : option nat }.

Definition amenity_chips (amenities : list string) : AmenityChips :=
  mkChips (firstn 4 amenities)
          (if (4 <? length amenities)%nat then Some (length amenities - 4) else None).

(** What one card of the grid shows.  A part that the JSX renders under a
    condition ([cond && (...)]) is an [option]. *)
Record Card : Type := mkCard {
  key : string;
  img_src : string;
  img_alt : string;
  category_badge : string;
  tag_chips : option (list string);
  heading : string;
  place : string;
  price_text : string;
  sqft_text : string;
  rera_text : string;
  highlights : option string;
  amenity_section : option AmenityChips;
  href : string
}.

(** The callback of [filteredProperties.map(...)]. *)
Definition card (property : Property) : Card :=
  {| key := _id property;
     img_src := if is_empty (photoUrl property) then "/placeholder.svg"
                else photoUrl property;
     img_alt := title property;
     category_badge := category property;
     tag_chips := if (0 <? length (tags property))%nat then Some (tags property) else None;
     heading := title property;
     place := location property;
     price_text := price property;
     sqft_text := priceSqft property;
     rera_text := reraId property;
     highlights := if String.eqb (projectHighlights property) "N/A" then None
                   else Some (projectHighlights property);
     amenity_section := if (0 <? length (amenities property))%nat
                        then Some (amenity_chips (amenities property))
                        else None;
     href := listingUrl property |}.

(** The grid of the page and the count in its header
    ([{filteredProperties.length} properties found]). *)
Definition cards (st : State) : list Card := map card (filteredProperties st).
Definition found (st : State) : nat := length (filteredProperties st).

End ListingCard.

(** ** The cards of the second view *)

Module ApartmentCard.
Import Js Part002.

Record AmenityChips : Type := mkChips { chips : list string; more : option nat }.

Definition amenity_chips (amenities : list string) : AmenityChips :=
  mkChips (firstn 4 amenities)
          (if (4 <? length amenities)%nat then Some (length amenities - 4) else None).

Record Card : Type := mkCard {
  key : string;
  img_src : string;
  img_alt : string;
  status_badge : string;
  heading : string;
  place : string;
  price_range : string;
  sqft_text : string;
  units : float;
  total_area : string;
  amenity_section : AmenityChips;
  href : string
}.

Definition rupee : string := "₹".

Section Formatting.

(** [n.toFixed(2)] and [n.toLocaleString("en-IN")]. *)
Variable toFixed2 : float -> string.
Variable toLocaleString : float -> string.

Definition formatPrice (price : float) : string :=
  if PrimFloat.leb 10000000 price
  then rupee ++ toFixed2 (price / 10000000) ++ " Cr"
  else if PrimFloat.leb 100000 price
       then rupee ++ toFixed2 (price / 100000) ++ " L"
       else rupee ++ toLocaleString price.

(** The callback of [filteredProperties.map(...)]; [maximum !== minimum] is
    the inequality of numbers, which holds of [NaN] and itself. *)
Definition card (property : Property) : Card :=
  {| key := _id property;
     img_src := if is_empty (Photo_URL property) then "/placeholder.svg"
                else Photo_URL property;
     img_alt := Apartment_Name property;
     status_badge := Project_Status property;
     heading := Apartment_Name property;
     place := Location property;
     price_range :=
       formatPrice (Minimum_Price property) ++
       (if negb (PrimFloat.eqb (Maximum_Price property) (Minimum_Price property))
        then " - " ++ formatPrice (Maximum_Price property)
        else "");
     sqft_text := rupee ++ toLocaleString (Per_Sqft_Cost property);
     units := Number_of_Units property;
     total_area := Total_Area property;
     amenity_section := amenity_chips (Amenities property);
     href := Listing_URL property |}.

Definition cards (st : State) : list Card := map card (filteredProperties st).

End Formatting.

Definition found (st : State) : nat := length (filteredProperties st).

End ApartmentCard.

(** ** Further concrete inputs *)

Module Cases.
Import Js Mongo Http.

(** A driver whose constructor accepts every string and whose [connect] is
    refused. *)
Definition refusing : Driver :=
  mkDriver (fun _ => None)
           (fun _ => Some (ThrownError "connect ECONNREFUSED 127.0.0.1:27017"))
           (fun _ _ _ => ret []).

Definition stale_client : MongoClient := mkClient "mongodb://old.example/".

Definition empty_uri : Env := mkEnv (Some "").

(** A listing with a property the response schema does not name. *)
Definition listing_with_extra : WithId :=
  mkDoc (mkObjectId "65a1f0c2e4b0a1b2c3d4e5f8")
        [("title", VString "Palm Court"); ("owner_phone", VString "+91 98765 43210")].

(** A listing stored under a string key of its own instead of an
    [ObjectId], without [amenities]. *)
Definition named_listing : Document :=
  mkDocument (VString "palm-court") [("title", VString "Palm Court")].

(** A received listing of the declared shape that lacks a photo, highlights,
    amenities and tags. *)
Definition plain_listing_doc : JsValue :=
  VObject [ ("_id", VObject [("$oid", VString "65a1f0c2e4b0a1b2c3d4e5f9")]);
            ("title", VString "Palm Court");
            ("fields", VObject [("address", VString "MG Road")]);
            ("taxonomies", VObject [("at_biz_dir-category", VArray [VString "Residential"])]) ].

(** A received apartment without price fields. *)
Definition unpriced_apartment_doc : JsValue :=
  VObject [ ("_id", VString "65a1f0c2e4b0a1b2c3d4e5fa");
            ("Apartment Name", VString "Hill Crest") ].

(** An apartment priced at 15 crore. *)
Definition costly : Part002.Property :=
  Part002.mkProperty "65a1f0c2e4b0a1b2c3d4e5fb" "Sky Villa" "Mumbai" 150000000%float
    150000000%float 90000%float 12%float "N/A" "New Launch" "" "#" [] 0%float 0%float.

(** A listing with six amenities. *)
Definition equipped : PropertyListings.Property :=
  PropertyListings.mkProperty "65a1f0c2e4b0a1b2c3d4e5fc" "Palm Court" "Goa" "N/A" "N/A" "" "#"
    ["Pool"; "Gym"; "Lift"; "Parking"; "Garden"; "Club House"]
    0%float 0%float "N/A" "Residential" ["Premium"] "N/A" "N/A".

(** Number formatters for the examples: they print nothing of the number. *)
Definition no_digits (n : float) : string := "".

End Cases.

(** * Properties *)

(** ** Strings and values *)

Section JsFacts.
Import Js.

Lemma prefix_split (t s : string) :
  String.prefix t s = true <-> exists post : string, s = (t ++ post)%string.
Proof.
  revert s. induction t as [|c t IH]; intros s; simpl.
  - split; [intros _; now exists s | now destruct s].
  - destruct s as [|d s]; simpl.
    + split; [discriminate | intros [post H]; discriminate].
    + destruct (Ascii.ascii_dec c d) as [->|Hne].
      * rewrite IH. split; intros [post H]; exists post; congruence.
      * split; [discriminate | intros [post H]; congruence].
Qed.

Lemma includes_here (s t : string) :
  String.prefix t s = true -> includes s t = true.
Proof. intros H. destruct s; simpl in *; rewrite H; reflexivity. Qed.

Lemma includes_later (c : ascii) (s t : string) :
  includes s t = true -> includes (String c s) t = true.
Proof. intros H. simpl. rewrite H. apply orb_true_r. Qed.

(** [includes] decides substring occurrence. *)
Lemma includes_contains (s t : string) :
  includes s t = true <-> Spec.contains s t.
Proof.
  unfold Spec.contains. split.
  - induction s as [|c s IH]; cbn [includes]; intros H.
    + rewrite orb_false_r in H. apply prefix_split in H as [post H].
      exists EmptyString, post. exact H.
    + apply orb_true_iff in H as [H|H].
      * apply prefix_split in H as [post H]. exists EmptyString, post. exact H.
      * destruct (IH H) as (pre & post & ->). exists (String c pre), post. reflexivity.
  - intros (pre & post & ->). induction pre as [|c pre IH]; simpl.
    + apply includes_here, prefix_split. now exists post.
    + change (includes (String c (pre ++ t ++ post)%string) t = true).
      apply includes_later, IH.
Qed.

Lemma not_includes_not_contains (s t : string) :
  includes s t = false -> ~ Spec.contains s t.
Proof. intros H C. apply includes_contains in C. congruence. Qed.

Lemma append_assoc (a b c : string) : ((a ++ b) ++ c)%string = (a ++ b ++ c)%string.
Proof. induction a as [|x a IH]; simpl; [reflexivity | now rewrite IH]. Qed.

(** The case map of the model works character by character. *)
Lemma toLowerCase_app (a b : string) :
  toLowerCase (a ++ b) = (toLowerCase a ++ toLowerCase b)%string.
Proof. induction a as [|x a IH]; simpl; [reflexivity | now rewrite IH]. Qed.

Lemma toLowerCase_split (s a b : string) :
  toLowerCase s = (a ++ b)%string ->
  exists s1 s2 : string,
    s = (s1 ++ s2)%string /\ toLowerCase s1 = a /\ toLowerCase s2 = b.
Proof.
  revert s. induction a as [|x a IH]; intros s H.
  - exists EmptyString, s. repeat split. exact H.
  - destruct s as [|c s]; [discriminate H|]. simpl in H. injection H as Hc Hs.
    destruct (IH s Hs) as (s1 & s2 & -> & H1 & H2).
    exists (String c s1), s2. split; [reflexivity|]. split; [|exact H2].
    simpl. now rewrite Hc, H1.
Qed.

Lemma lower_ascii_code (c : ascii) :
  nat_of_ascii (lower_ascii c) =
  if ((65 <=? nat_of_ascii c)%nat && (nat_of_ascii c <=? 90)%nat)%bool
  then nat_of_ascii c + 32
  else nat_of_ascii c.
Proof.
  unfold lower_ascii. cbv zeta.
  destruct ((65 <=? nat_of_ascii c)%nat && (nat_of_ascii c <=? 90)%nat)%bool eqn:E;
    [|reflexivity].
  apply andb_true_iff in E as [_ E]. apply Nat.leb_le in E.
  apply nat_ascii_embedding. lia.
Qed.

Lemma lower_ascii_capital (n : nat) :
  (65 <= n <= 90)%nat -> lower_ascii (ascii_of_nat n) = ascii_of_nat (n + 32).
Proof.
  intros H. unfold lower_ascii. cbv zeta. rewrite nat_ascii_embedding by lia.
  destruct (Nat.leb_spec 65 n); [|lia]. destruct (Nat.leb_spec n 90); [|lia]. reflexivity.
Qed.

Lemma lower_ascii_small (n : nat) :
  (65 <= n <= 90)%nat -> lower_ascii (ascii_of_nat (n + 32)) = ascii_of_nat (n + 32).
Proof.
  intros H. unfold lower_ascii. cbv zeta. rewrite nat_ascii_embedding by lia.
  destruct (Nat.leb_spec (n + 32) 90); [lia|]. now rewrite andb_false_r.
Qed.

(** Two characters have the same lower case exactly when they are the same
    letter. *)
Lemma lower_ascii_same_letter (c d : ascii) :
  lower_ascii c = lower_ascii d <-> Spec.same_letter c d.
Proof.
  split.
  - intros H. apply (f_equal nat_of_ascii) in H. rewrite !lower_ascii_code in H.
    rewrite <- (ascii_nat_embedding c), <- (ascii_nat_embedding d).
    destruct (Nat.leb_spec 65 (nat_of_ascii c)), (Nat.leb_spec (nat_of_ascii c) 90),
      (Nat.leb_spec 65 (nat_of_ascii d)), (Nat.leb_spec (nat_of_ascii d) 90);
      cbn [andb] in H;
      try (replace (nat_of_ascii d) with (nat_of_ascii c) by lia; constructor);
      try (rewrite <- H; now constructor);
      try (rewrite H; now constructor).
  - intros [c'|n H|n H].
    + reflexivity.
    + now rewrite (lower_ascii_capital n H), (lower_ascii_small n H).
    + now rewrite (lower_ascii_capital n H), (lower_ascii_small n H).
Qed.

Lemma toLowerCase_same_letters (s t : string) :
  toLowerCase s = toLowerCase t <-> Spec.same_letters s t.
Proof.
  split.
  - revert t. induction s as [|c s IH]; intros [|d t] H; try discriminate H.
    + constructor.
    + simpl in H. injection H as Hc Hs.
      constructor; [now apply lower_ascii_same_letter | now apply IH].
  - induction 1 as [|c d s t Hc _ IH]; [reflexivity|].
    simpl. apply lower_ascii_same_letter in Hc. now rewrite Hc, IH.
Qed.

(** Lower-casing both sides and looking for an occurrence is looking for an
    occurrence up to the case of the letters. *)
Lemma contains_lower_ignoring_case (s term : string) :
  Spec.contains (toLowerCase s) (toLowerCase term) <-> Spec.contains_ignoring_case s term.
Proof.
  split.
  - intros (pre & post & H).
    apply toLowerCase_split in H as (s1 & rest & -> & _ & H).
    apply toLowerCase_split in H as (s2 & s3 & -> & H & _).
    exists s1, s2, s3. split; [reflexivity | now apply toLowerCase_same_letters].
  - intros (pre & part & post & -> & H). apply toLowerCase_same_letters in H.
    exists (toLowerCase pre), (toLowerCase post).
    now rewrite !toLowerCase_app, H.
Qed.

Lemma includes_ignoring_case (s term : string) :
  includes (toLowerCase s) (toLowerCase term) = true <-> Spec.contains_ignoring_case s term.
Proof. rewrite includes_contains. apply contains_lower_ignoring_case. Qed.

Lemma array_includes_In (arr : list string) (x : string) :
  array_includes arr x = true <-> In x arr.
Proof.
  unfold array_includes. rewrite existsb_exists. split.
  - intros (y & Hy & E). apply String.eqb_eq in E. now subst.
  - intros H. exists x. split; [exact H | apply String.eqb_refl].
Qed.



Lemma js_or_absent (x d : JsValue) : x = VUndefined -> js_or x d = d.
Proof. now intros ->. Qed.

Lemma member_defined (v : JsValue) (k : string) :
  nullish v = false -> member v k = ret (opt_member v k).
Proof. destruct v; simpl; intros H; (discriminate H || reflexivity). Qed.

Lemma member_nullish (v : JsValue) (k : string) :
  nullish v = true -> exists e, member v k = throw e.
Proof. destruct v; simpl; intros H; try discriminate H; unfold TypeError; eauto. Qed.

(** A truthy [v?.k] shows that [v] is an object. *)
Lemma truthy_opt_member (v : JsValue) (k : string) :
  truthy (opt_member v k) = true -> nullish v = false.
Proof. destruct v; simpl; congruence. Qed.

(** Reading a property commutes with the JSON transport. *)
Lemma lookup_prop_toJSON (k : string) (props : list (string * JsValue)) :
  lookup_prop k (map (fun kv => (fst kv, toJSON (snd kv))) props)
  = toJSON (lookup_prop k props).
Proof.
  induction props as [|[k' v] props IH]; simpl; [reflexivity|].
  destruct (String.eqb k k'); [reflexivity | exact IH].
Qed.

Lemma opt_member_toJSON (props : list (string * JsValue)) (k : string) :
  opt_member (toJSON (VObject props)) k = toJSON (lookup_prop k props).
Proof. simpl. apply lookup_prop_toJSON. Qed.

Lemma mapM_length {A B} (f : A -> Throws B) (l : list A) (l' : list B) :
  mapM f l = ret l' -> length l' = length l.
Proof.
  revert l'. induction l as [|a l IH]; simpl; intros l' H.
  - injection H as <-. reflexivity.
  - destruct (f a) as [e|b]; simpl in H; [discriminate|].
    destruct (mapM f l) as [e|bs]; simpl in H; [discriminate|].
    injection H as <-. simpl. f_equal. now apply IH.
Qed.

(** A callback that returns on every element makes the traversal return. *)
Lemma mapM_returns {A B} (f : A -> Throws B) (l : list A) :
  Forall (fun a => exists b, f a = ret b) l -> exists l', mapM f l = ret l'.
Proof.
  induction 1 as [|a l [b Hb] _ [bs Hbs]]; simpl.
  - now exists [].
  - rewrite Hb. simpl. rewrite Hbs. simpl. now exists (b :: bs).
Qed.

(** A callback that throws on one element makes the traversal throw. *)
Lemma mapM_throws {A B} (f : A -> Throws B) (l : list A) :
  Exists (fun a => exists e, f a = throw e) l -> exists e, mapM f l = throw e.
Proof.
  induction l as [|a l IH]; intros H; [inversion H|].
  simpl. destruct (f a) as [e|b] eqn:Ea; simpl; [eauto|].
  apply Exists_cons in H as [[e He]|H]; [rewrite He in Ea; discriminate|].
  destruct (IH H) as [e ->]. simpl. eauto.
Qed.

(** What every result of the callback satisfies, the results of the
    traversal satisfy. *)
Lemma mapM_Forall {A B} (f : A -> Throws B) (P : B -> Prop) (l : list A) (l' : list B) :
  (forall a b, f a = ret b -> P b) -> mapM f l = ret l' -> Forall P l'.
Proof.
  intros Hf. revert l'. induction l as [|a l IH]; simpl; intros l' H.
  - injection H as <-. constructor.
  - destruct (f a) as [e|b] eqn:E; simpl in H; [discriminate|].
    destruct (mapM f l) as [e|bs]; simpl in H; [discriminate|].
    injection H as <-. constructor; [now apply (Hf a) | now apply IH].
Qed.

End JsFacts.

(** ** The handler *)

Section HandlerFacts.
Import Js Mongo.

(** A cursor limited to a positive [n] yields at most [n] documents. *)
Lemma toArray_limit (n : nat) (cur : FindCursor) (docs : list Document) :
  toArray (limit (S n) cur) = ret docs -> length docs <= S n.
Proof.
  unfold toArray, limit. simpl. destruct (cursor_source cur) as [e|all]; simpl.
  - discriminate.
  - intros H. injection H as <-.
    change (length (firstn (S n) all) <= S n). rewrite length_firstn. lia.
Qed.

Lemma toArray_empty (n : nat) (cur : FindCursor) :
  cursor_source cur = ret [] -> toArray (limit n cur) = ret [].
Proof.
  intros H. unfold toArray, limit. simpl. rewrite H. simpl.
  destruct n; [reflexivity | now rewrite firstn_nil].
Qed.

Lemma GET000_response drv env cached request :
  fst (Part000.GET drv env cached request) =
  match Part000.attempt drv (fst (Part000.getMongoClient drv env cached)) with
  | inr response => response
  | inl error => Part000.on_error error
  end.
Proof. unfold Part000.GET. now destruct (Part000.getMongoClient drv env cached). Qed.

Lemma GET001_response drv env cached request :
  fst (Part001.GET drv env cached request) =
  match Part001.attempt drv (fst (Part001.getMongoClient drv env cached)) with
  | inr response => response
  | inl error => Part001.on_error error
  end.
Proof. unfold Part001.GET. now destruct (Part001.getMongoClient drv env cached). Qed.

(** The callback of the first handler returns on a document whose [_id] is
    an [ObjectId], and throws on every other document. *)
Lemma format_document_stored property :
  Part000.format_document (stored property) = ret (Part000.formatProperty property).
Proof. destruct property. reflexivity. Qed.


Lemma format_document_other d :
  (forall oid, doc_id d <> VObjectId oid) ->
  exists message, Part000.format_document d = TypeError message.
Proof.
  intros H. unfold Part000.format_document.
  destruct (doc_id d) as [| | | | | | |oid]; eauto. now destruct (H oid).
Qed.

(** What it returns is an object. *)
Lemma format_document_object d formatted :
  Part000.format_document d = ret formatted -> exists props, formatted = VObject props.
Proof.
  unfold Part000.format_document, Part000.formatProperty, TypeError, throw, ret.
  destruct (doc_id d); intros H; try discriminate H. injection H as <-. eauto.
Qed.

(** When the [try] block of the first handler returns, it returns status 200
    and at most 500 formatted documents, each of them an object. *)
Lemma attempt000_returns drv got response :
  Part000.attempt drv got = ret response ->
  exists docs,
    length docs <= 500 /\
    Forall (fun d => nullish d = false) (map json_element docs) /\
    response = mkResponse 200 (Spec.documents_body docs).
Proof.
  unfold Part000.attempt. destruct got as [e|client]; simpl; [discriminate|].
  destruct (await_connect drv client) as [e|[]]; simpl; [discriminate|].
  destruct (toArray _) as [e|properties] eqn:Q; simpl; [discriminate|].
  destruct (mapM Part000.format_document properties) as [e|docs] eqn:M; simpl;
    [discriminate|].
  intros H. injection H as <-. exists docs. split; [|split; [|reflexivity]].
  - apply toArray_limit in Q. apply mapM_length in M. lia.
  - rewrite Forall_map. eapply mapM_Forall; [|exact M].
    intros d formatted Hd. apply format_document_object in Hd as [props ->]. reflexivity.
Qed.

Lemma attempt001_returns drv got response :
  Part001.attempt drv got = ret response ->
  exists docs,
    length docs <= 500 /\
    Forall (fun d => nullish d = false) (map json_element docs) /\
    response = mkResponse 200 (Spec.documents_body docs).
Proof.
  unfold Part001.attempt. destruct got as [e|client]; simpl; [discriminate|].
  destruct (await_connect drv client) as [e|[]]; simpl; [discriminate|].
  destruct (toArray _) as [e|properties] eqn:Q; simpl; [discriminate|].
  intros H. injection H as <-. exists (map document_value properties).
  split; [|split; [|reflexivity]].
  - rewrite length_map. now apply toArray_limit in Q.
  - rewrite !Forall_map. apply Forall_true. intros d. reflexivity.
Qed.

(** The three ways in which the [try] block throws. *)
Lemma attempt000_client_failure drv e :
  Part000.attempt drv (throw e) = throw e.
Proof. reflexivity. Qed.

Lemma attempt000_connect_failure drv client e :
  connect drv client = Some e -> Part000.attempt drv (ret client) = throw e.
Proof. intros H. unfold Part000.attempt, await_connect. simpl. now rewrite H. Qed.

Lemma attempt000_query_failure drv client e :
  connect drv client = None ->
  contents drv client "proptrust" "listings" = throw e ->
  Part000.attempt drv (ret client) = throw e.
Proof.
  intros Hc Hq. unfold Part000.attempt, await_connect, toArray. simpl.
  rewrite Hc. simpl. now rewrite Hq.
Qed.

Lemma attempt001_client_failure drv e :
  Part001.attempt drv (throw e) = throw e.
Proof. reflexivity. Qed.

Lemma attempt001_connect_failure drv client e :
  connect drv client = Some e -> Part001.attempt drv (ret client) = throw e.
Proof. intros H. unfold Part001.attempt, await_connect. simpl. now rewrite H. Qed.

Lemma attempt001_query_failure drv client e :
  connect drv client = None ->
  contents drv client "ccube_research" "apartment" = throw e ->
  Part001.attempt drv (ret client) = throw e.
Proof.
  intros Hc Hq. unfold Part001.attempt, await_connect, toArray. simpl.
  rewrite Hc. simpl. now rewrite Hq.
Qed.

(** When the query succeeds on an empty collection the [try] block returns
    the empty list of documents. *)
Lemma attempt000_empty drv client :
  connect drv client = None ->
  contents drv client "proptrust" "listings" = ret [] ->
  Part000.attempt drv (ret client) = ret (mkResponse 200 (Spec.documents_body [])).
Proof.
  intros Hc Hq. unfold Part000.attempt, await_connect. simpl. rewrite Hc. simpl.
  rewrite toArray_empty; [reflexivity | exact Hq].
Qed.

Lemma attempt001_empty drv client :
  connect drv client = None ->
  contents drv client "ccube_research" "apartment" = ret [] ->
  Part001.attempt drv (ret client) = ret (mkResponse 200 (Spec.documents_body [])).
Proof.
  intros Hc Hq. unfold Part001.attempt, await_connect. simpl. rewrite Hc. simpl.
  rewrite toArray_empty; [reflexivity | exact Hq].
Qed.

(** The string the first handler takes for its connection string is never
    empty, so its guard [if (!uri)] never fires. *)
Lemma uri000_not_empty env : is_empty (Part000.uri env) = false.
Proof.
  unfold Part000.uri, env_plus. destruct (MONGODB_URI env) as [s|]; [|reflexivity].
  induction s; [reflexivity | reflexivity].
Qed.

(** Hence, with an empty cache, the client is whatever the driver's
    constructor makes of [uri]. *)
Lemma getMongoClient000_uncached drv env :
  Part000.getMongoClient drv env None =
  match construct drv (Part000.uri env) with
  | Some e => (throw e, None)
  | None => (ret (mkClient (Part000.uri env)), Some (mkClient (Part000.uri env)))
  end.
Proof. unfold Part000.getMongoClient. now rewrite uri000_not_empty. Qed.

(** The second handler does stop at its guard when the variable is absent. *)
Lemma getMongoClient001_missing drv env :
  MONGODB_URI env = None ->
  Part001.getMongoClient drv env None =
  (throw (ThrownError "MONGODB_URI environment variable not configured"), None).
Proof. intros H. unfold Part001.getMongoClient, Part001.uri. now rewrite H. Qed.

(** In the second handler an absent variable leaves the cache empty, so the
    guard is reached on every later invocation as well. *)
Lemma GET001_missing drv env request :
  MONGODB_URI env = None ->
  Part001.GET drv env None request =
  (mkResponse 500 (Spec.error_body "MONGODB_URI environment variable not configured"), None).
Proof.
  intros H. unfold Part001.GET. rewrite getMongoClient001_missing by exact H. reflexivity.
Qed.

(** Neither handler reads its request. *)
Lemma GET000_ignores_request drv env cached request request' :
  Part000.GET drv env cached request = Part000.GET drv env cached request'.
Proof. reflexivity. Qed.

Lemma GET001_ignores_request drv env cached request request' :
  Part001.GET drv env cached request = Part001.GET drv env cached request'.
Proof. reflexivity. Qed.

(** So two runs of equally many invocations give the same answers, whatever
    the requests. *)
Lemma serve_ignores_requests (handler : Handler) drv env cached requests requests' :
  (forall c r r', handler drv env c r = handler drv env c r') ->
  length requests = length requests' ->
  serve handler drv env cached requests = serve handler drv env cached requests'.
Proof.
  intros Hh. revert cached requests'.
  induction requests as [|r rs IH]; intros cached [|r' rs'] Hlen;
    simpl in *; try discriminate; [reflexivity|].
  rewrite (Hh cached r r'). destruct (handler drv env cached r') as [response cached'].
  rewrite (IH cached' rs') by congruence. reflexivity.
Qed.

(** Without its variable the second handler answers every invocation with
    the error that names the variable: the cache stays empty. *)
Lemma serve001_missing drv env requests :
  MONGODB_URI env = None ->
  serve Part001.GET drv env None requests =
  (map (fun _ =>
          mkResponse 500
            (Spec.error_body "MONGODB_URI environment variable not configured"))
       requests, None).
Proof.
  intros Henv. induction requests as [|r rs IH]; [reflexivity|].
  cbn [serve]. rewrite (GET001_missing drv env r Henv), IH. reflexivity.
Qed.

(** Without its variable the first handler answers every invocation with
    the parse error of a driver that refuses the string
    ["undefined&ssl=false"]. *)
Lemma serve000_unconfigured docs requests :
  serve Part000.GET (Scenario.serving docs) Scenario.unconfigured None requests =
  (map (fun _ => mkResponse 500 (Spec.error_body Scenario.invalid_scheme)) requests, None).
Proof.
  induction requests as [|r rs IH]; [reflexivity|].
  cbn [serve].
  change (Part000.GET (Scenario.serving docs) Scenario.unconfigured None r)
    with (mkResponse 500 (Spec.error_body Scenario.invalid_scheme), @None MongoClient).
  cbv beta iota. rewrite IH. reflexivity.
Qed.

End HandlerFacts.

(** ** The view-model mapping *)

Section MappingFacts.
Import Js Http.

Ltac read_members :=
  repeat (rewrite member_defined by assumption); unfold bind, ret.

Lemma parsed_field_defined parseFloat doc name :
  nullish doc = false ->
  PropertyListings.parsed_field parseFloat doc name =
  ret (if truthy (opt_member (opt_member doc "fields") name)
       then parseFloat (opt_member (opt_member doc "fields") name)
       else 0%float).
Proof.
  intros Hdoc. unfold PropertyListings.parsed_field. read_members.
  destruct (truthy (opt_member (opt_member doc "fields") name)) eqn:E; [|reflexivity].
  rewrite member_defined by (eapply truthy_opt_member; exact E). reflexivity.
Qed.

(** On a document that is neither [undefined] nor [null] the callback of the
    first view returns, and this is the record it returns. *)
Lemma processDoc_listing parseFloat doc :
  nullish doc = false ->
  PropertyListings.processDoc parseFloat doc =
  ret (let fields := opt_member doc "fields" in
       let taxonomies := opt_member doc "taxonomies" in
       let parsed name :=
         if truthy (opt_member fields name) then parseFloat (opt_member fields name)
         else 0%float in
       PropertyListings.Any.mkProperty
         (js_or (opt_member (opt_member doc "_id") "$oid") (opt_member doc "_id"))
         (js_or (opt_member doc "title") (VString "Unknown"))
         (js_or (opt_first (opt_member taxonomies "at_biz_dir-location")) (VString "Unknown"))
         (js_or (opt_member fields "starting_bsp") (VString "N/A"))
         (js_or (opt_member fields "price_sqft") (VString "N/A"))
         (js_or (opt_member fields "photo_url") (VString ""))
         (js_or (opt_member fields "listing_url") (VString "#"))
         (js_or (opt_member fields "amenities") (VArray []))
         (parsed "latitude")
         (parsed "longitude")
         (js_or (opt_member fields "address") (VString "N/A"))
         (js_or (opt_first (opt_member taxonomies "at_biz_dir-category")) (VString "Unknown"))
         (js_or (opt_member taxonomies "at_biz_dir-tags") (VArray []))
         (js_or (opt_member fields "project_highlights") (VString "N/A"))
         (js_or (opt_member fields "rera_id") (VString "N/A"))).
Proof.
  intros Hdoc. unfold PropertyListings.processDoc.
  rewrite !parsed_field_defined by exact Hdoc. read_members. reflexivity.
Qed.

Lemma unboxed_defined parse doc name tag :
  nullish doc = false ->
  Part002.unboxed parse doc name tag =
  ret (if truthy (opt_member (opt_member doc name) tag)
       then parse (opt_member (opt_member doc name) tag)
       else match opt_member doc name with
            | VNumber n => n
            | _ => 0%float
            end).
Proof.
  intros Hdoc. unfold Part002.unboxed. read_members.
  destruct (truthy (opt_member (opt_member doc name) tag)) eqn:E.
  - rewrite member_defined by (eapply truthy_opt_member; exact E). reflexivity.
  - now destruct (opt_member doc name).
Qed.

(** The same for the callback of the second view. *)
Lemma processDoc_apartment parseInt parseFloat doc :
  nullish doc = false ->
  Part002.processDoc parseInt parseFloat doc =
  ret (let number parse name tag :=
         if truthy (opt_member (opt_member doc name) tag)
         then parse (opt_member (opt_member doc name) tag)
         else match opt_member doc name with
              | VNumber n => n
              | _ => 0%float
              end in
       Part002.Any.mkProperty
         (js_or (opt_member (opt_member doc "_id") "$oid") (opt_member doc "_id"))
         (js_or (opt_member doc "Apartment Name") (VString "Unknown"))
         (js_or (opt_member doc "Location") (VString "Unknown"))
         (number parseInt "Minimum Price" "$numberInt")
         (number parseInt "Maximum Price" "$numberInt")
         (number parseFloat "Per Sqft Cost" "$numberDouble")
         (number parseInt "Number of Units" "$numberInt")
         (js_or (opt_member doc "Total Area") (VString "N/A"))
         (js_or (opt_member doc "Project Status") (VString "Unknown"))
         (js_or (opt_member doc "Photo URL") (VString ""))
         (js_or (opt_member doc "Listing URL") (VString "#"))
         (js_or (opt_member doc "Amenities") (VArray []))
         (number parseFloat "Latitude" "$numberDouble")
         (number parseFloat "Longitude" "$numberDouble")).
Proof.
  intros Hdoc. unfold Part002.processDoc.
  rewrite !unboxed_defined by exact Hdoc. read_members. reflexivity.
Qed.

(** The callbacks throw on [undefined] and [null], and on nothing else. *)
Lemma processDoc_listing_throws parseFloat doc :
  nullish doc = true ->
  exists e, PropertyListings.processDoc parseFloat doc = throw e.
Proof.
  intros H. unfold PropertyListings.processDoc.
  destruct (member_nullish doc "_id" H) as [e ->]. simpl. eauto.
Qed.

Lemma processDoc_apartment_throws parseInt parseFloat doc :
  nullish doc = true ->
  exists e, Part002.processDoc parseInt parseFloat doc = throw e.
Proof.
  intros H. unfold Part002.processDoc.
  destruct (member_nullish doc "_id" H) as [e ->]. simpl. eauto.
Qed.








End MappingFacts.

(** ** From the handler's response to the view's records *)

Section PipelineFacts.
Import Js Mongo Http.

Lemma toJSON_documents_body docs :
  toJSON (Spec.documents_body docs) = Spec.documents_body (map json_element docs).
Proof. reflexivity. Qed.

Lemma json_element_object props : nullish (json_element (VObject props)) = false.
Proof. reflexivity. Qed.

Lemma formatted_is_object property :
  exists props, Part000.formatProperty property = VObject props.
Proof. unfold Part000.formatProperty. eauto. Qed.

(** On documents other than [undefined] and [null],
    [data.documents.map(...)] builds one record per document. *)
Lemma processedData_listing parseFloat docs :
  Forall (fun d => nullish d = false) docs ->
  exists records,
    PropertyListings.processedData parseFloat (Spec.documents_body docs) = ret records /\
    length records = length docs.
Proof.
  intros Hdocs. unfold PropertyListings.processedData. simpl.
  destruct (mapM_returns (PropertyListings.processDoc parseFloat) docs) as [records H].
  - eapply Forall_impl; [exact Hdocs|]. intros d Hd. simpl in Hd.
    rewrite processDoc_listing by exact Hd. eauto.
  - exists records. split; [exact H | now apply mapM_length in H].
Qed.

Lemma processedData_apartment parseInt parseFloat docs :
  Forall (fun d => nullish d = false) docs ->
  exists records,
    Part002.processedData parseInt parseFloat (Spec.documents_body docs) = ret records /\
    length records = length docs.
Proof.
  intros Hdocs. unfold Part002.processedData. simpl.
  destruct (mapM_returns (Part002.processDoc parseInt parseFloat) docs) as [records H].
  - eapply Forall_impl; [exact Hdocs|]. intros d Hd. simpl in Hd.
    rewrite processDoc_apartment by exact Hd. eauto.
  - exists records. split; [exact H | now apply mapM_length in H].
Qed.

(** A delivered 200 response passes the [response.ok] test and parses. *)
Lemma delivered_attempt_listing parseFloat sent response :
  status sent = 200 -> delivers sent response ->
  PropertyListings.fetch_attempt parseFloat (ret response) =
  PropertyListings.processedData parseFloat (toJSON (body sent)).
Proof.
  intros Hs [Hst Hjson]. unfold PropertyListings.fetch_attempt, ok. simpl.
  rewrite Hst, Hs, Hjson. reflexivity.
Qed.

Lemma delivered_attempt_apartment parseInt parseFloat sent response :
  status sent = 200 -> delivers sent response ->
  Part002.fetch_attempt parseInt parseFloat (ret response) =
  Part002.processedData parseInt parseFloat (toJSON (body sent)).
Proof.
  intros Hs [Hst Hjson]. unfold Part002.fetch_attempt, ok. simpl.
  rewrite Hst, Hs, Hjson. reflexivity.
Qed.

Lemma asProperties_listing_length os ps :
  PropertyListings.asProperties os = Some ps -> length ps = length os.
Proof.
  revert ps. induction os as [|o os IH]; simpl; intros ps H.
  - injection H as <-. reflexivity.
  - destruct (PropertyListings.asProperty o); [|discriminate].
    destruct (PropertyListings.asProperties os); [|discriminate].
    injection H as <-. simpl. f_equal. now apply IH.
Qed.

Lemma asProperties_apartment_length os ps :
  Part002.asProperties os = Some ps -> length ps = length os.
Proof.
  revert ps. induction os as [|o os IH]; simpl; intros ps H.
  - injection H as <-. reflexivity.
  - destruct (Part002.asProperty o); [|discriminate].
    destruct (Part002.asProperties os); [|discriminate].
    injection H as <-. simpl. f_equal. now apply IH.
Qed.

(** After a fetch that computed [records], the state holds as many. *)
Lemma fetchProperties_listing_length parseFloat fetched records st st' :
  PropertyListings.fetch_attempt parseFloat fetched = ret records ->
  PropertyListings.fetchProperties parseFloat fetched st = Some st' ->
  length (PropertyListings.properties st') = length records /\
  PropertyListings.filteredProperties st' = PropertyListings.properties st'.
Proof.
  intros Ha. unfold PropertyListings.fetchProperties. rewrite Ha. unfold ret. cbv beta iota zeta.
  destruct (PropertyListings.asProperties records) as [ps|] eqn:E; intros H; [|discriminate H].
  injection H as <-. simpl.
  split; [now apply asProperties_listing_length | reflexivity].
Qed.

Lemma fetchProperties_apartment_length parseInt parseFloat fetched records st st' :
  Part002.fetch_attempt parseInt parseFloat fetched = ret records ->
  Part002.fetchProperties parseInt parseFloat fetched st = Some st' ->
  length (Part002.properties st') = length records /\
  Part002.filteredProperties st' = Part002.properties st'.
Proof.
  intros Ha. unfold Part002.fetchProperties. rewrite Ha. unfold ret. cbv beta iota zeta.
  destruct (Part002.asProperties records) as [ps|] eqn:E; intros H; [|discriminate H].
  injection H as <-. simpl.
  split; [now apply asProperties_apartment_length | reflexivity].
Qed.

End PipelineFacts.

(** ** Filtering *)

Section FilterFacts.
Import Js.
Context {A : Type}.

(** [Array.prototype.filter] with a fixed callback is idempotent. *)
Lemma filter_twice (f : A -> bool) (l : list A) :
  List.filter f (List.filter f l) = List.filter f l.
Proof.
  induction l as [|a l IH]; simpl; [reflexivity|].
  destruct (f a) eqn:E; simpl; [rewrite E, IH; reflexivity | exact IH].
Qed.

(** Its result is a sublist of its argument: it drops elements and does
    nothing else. *)
Lemma filter_is_sublist (f : A -> bool) (l : list A) :
  List.filter f l `sublist_of` l.
Proof.
  induction l as [|a l IH]; simpl; [constructor|].
  destruct (f a); [now apply sublist_skip | now apply sublist_cons].
Qed.

(** It coincides with the filter by any decidable predicate that the
    callback decides. *)
Lemma filter_by_predicate (f : A -> bool) (P : A -> Prop)
    (dec : forall a, Decision (P a)) (l : list A) :
  (forall a, f a = true <-> P a) ->
  List.filter f l = @filter _ _ _ P dec l.
Proof.
  intros Hf. induction l as [|a l IH]; [reflexivity|].
  simpl. rewrite filter_cons. destruct (decide (P a)) as [Hp|Hn].
  - apply Hf in Hp. rewrite Hp. now f_equal.
  - destruct (f a) eqn:E; [apply Hf in E; contradiction | exact IH].
Qed.

End FilterFacts.

Section ViewFacts.
Import Js.

(** The callback of the first view decides the case-insensitive reading of
    the three tests. *)
Lemma keeps_listing st p :
  PropertyListings.keeps st p = true <-> Spec.listing_kept st p.
Proof.
  unfold PropertyListings.keeps, Spec.listing_kept.
  unfold PropertyListings.matchesSearch, PropertyListings.matchesCategory,
    PropertyListings.matchesTag, Spec.listing_search, Spec.listing_category,
    Spec.listing_tag.
  rewrite !andb_true_iff, !orb_true_iff, !includes_ignoring_case, !String.eqb_eq,
    array_includes_In.
  tauto.
Qed.

Lemma keeps_apartment st p :
  Part002.keeps st p = true <-> Spec.apartment_kept st p.
Proof.
  unfold Part002.keeps, Spec.apartment_kept.
  unfold Part002.matchesSearch, Part002.matchesStatus, Part002.matchesPrice,
    Spec.apartment_search, Spec.apartment_status, Spec.apartment_price.
  cbv zeta.
  rewrite !andb_true_iff, !orb_true_iff, !includes_ignoring_case, !String.eqb_eq.
  tauto.
Qed.

(** Hence the tests of the specification are decidable. *)
Definition listing_kept_dec st p : Decision (Spec.listing_kept st p).
Proof.
  destruct (PropertyListings.keeps st p) eqn:E.
  - left. apply keeps_listing, E.
  - right. intros H. apply keeps_listing in H. congruence.
Defined.

Definition apartment_kept_dec st p : Decision (Spec.apartment_kept st p).
Proof.
  destruct (Part002.keeps st p) eqn:E.
  - left. apply keeps_apartment, E.
  - right. intros H. apply keeps_apartment in H. congruence.
Defined.

(** The callback reads the controls only, not the two lists of the state. *)
Lemma keeps_listing_controls st v w :
  PropertyListings.keeps
    (PropertyListings.setFilteredProperties v (PropertyListings.setProperties w st))
  = PropertyListings.keeps st.
Proof. reflexivity. Qed.

Lemma keeps_apartment_controls st v w :
  Part002.keeps (Part002.setFilteredProperties v (Part002.setProperties w st))
  = Part002.keeps st.
Proof. reflexivity. Qed.

(** Once the effect has run the filtered list is up to date, and every
    edit of the controls keeps it so. *)
Lemma filterProperties_listing_settles st :
  PropertyListings.settled (PropertyListings.filterProperties st).
Proof. reflexivity. Qed.

Lemma edit_listing_settled e st :
  PropertyListings.settled st -> PropertyListings.settled (PropertyListings.edit e st).
Proof.
  intros H. destruct e; simpl;
    [apply filterProperties_listing_settles .. | exact H].
Qed.

Lemma loaded_listing_settled parseFloat fetched st st' :
  PropertyListings.loaded parseFloat fetched st = Some st' -> PropertyListings.settled st'.
Proof.
  unfold PropertyListings.loaded.
  destruct (PropertyListings.fetchProperties parseFloat fetched st); simpl; intros H;
    [|discriminate H].
  injection H as <-. apply filterProperties_listing_settles.
Qed.

Lemma edits_listing_settled es st :
  PropertyListings.settled st ->
  PropertyListings.settled (fold_left (fun s e => PropertyListings.edit e s) es st).
Proof.
  revert st. induction es as [|e es IH]; intros st H; simpl; [exact H|].
  apply IH, edit_listing_settled, H.
Qed.

Lemma filterProperties_apartment_settles st :
  Part002.settled (Part002.filterProperties st).
Proof. reflexivity. Qed.

Lemma edit_apartment_settled e st :
  Part002.settled st -> Part002.settled (Part002.edit e st).
Proof.
  intros H. destruct e; simpl;
    [apply filterProperties_apartment_settles .. | exact H].
Qed.

Lemma loaded_apartment_settled parseInt parseFloat fetched st st' :
  Part002.loaded parseInt parseFloat fetched st = Some st' -> Part002.settled st'.
Proof.
  unfold Part002.loaded.
  destruct (Part002.fetchProperties parseInt parseFloat fetched st); simpl; intros H;
    [|discriminate H].
  injection H as <-. apply filterProperties_apartment_settles.
Qed.

Lemma edits_apartment_settled es st :
  Part002.settled st ->
  Part002.settled (fold_left (fun s e => Part002.edit e s) es st).
Proof.
  revert st. induction es as [|e es IH]; intros st H; simpl; [exact H|].
  apply IH, edit_apartment_settled, H.
Qed.

End ViewFacts.

(** ** The definitions at work *)

Section Examples.
Import Js Mongo Http.

Example lower_case_title : toLowerCase "Villa Serena, Goa" = "villa serena, goa".
Proof. reflexivity. Qed.

Example search_hits_inside : includes "villa serena, goa" "serena" = true.
Proof. reflexivity. Qed.

Example search_misses : includes "villa serena, goa" "pune" = false.
Proof. reflexivity. Qed.

Example first_uri_when_unset : Part000.uri Scenario.unconfigured = "undefined&ssl=false".
Proof. reflexivity. Qed.

Example first_uri_when_set :
  Part000.uri Scenario.configured = "mongodb://db.example/?retryWrites=true&ssl=false".
Proof. reflexivity. Qed.

(** A limit of 500 cuts a longer collection down to its first 500. *)
Example limit_cuts_long_collection :
  option_map (@length Document)
    (match toArray (limit 500 (mkCursor (ret (repeat (stored Scenario.bare_listing) 700)) 0))
     with
     | inr docs => Some docs
     | inl _ => None
     end) = Some 500.
Proof. vm_compute. reflexivity. Qed.

Example formatted_bare_listing :
  opt_member (Part000.formatProperty Scenario.bare_listing) "_id"
  = VObject [("$oid", VString "65a1f0c2e4b0a1b2c3d4e5f6")] /\
  opt_member (opt_member (Part000.formatProperty Scenario.bare_listing) "taxonomies")
    "at_biz_dir-tags" = VArray [].
Proof. split; reflexivity. Qed.

(** The second handler's document reads back with its identifier as a
    string, which the view keeps. *)
Example apartment_round_trip :
  option_map Part002.asProperty
    (match Part002.processDoc Scenario.parse_number Scenario.parse_number
             (json_element (doc_value Scenario.bare_apartment)) with
     | inr p => Some p
     | inl _ => None
     end)
  = Some (Some (Part002.mkProperty "65a1f0c2e4b0a1b2c3d4e5f7" "Lake View" "Unknown"
                  0%float 0%float 0%float 0%float "N/A" "Unknown" "" "#" []
                  0%float 0%float)).
Proof. vm_compute. reflexivity. Qed.

(** A boxed integer is unboxed by the parser, a plain number is taken as it
    is, anything else counts as 0. *)
Example unboxed_cases :
  Part002.unboxed Scenario.parse_number
    (VObject [("Minimum Price", VObject [("$numberInt", VNumber 4500000%float)])])
    "Minimum Price" "$numberInt" = ret 4500000%float /\
  Part002.unboxed Scenario.parse_number
    (VObject [("Minimum Price", VNumber 4500000%float)])
    "Minimum Price" "$numberInt" = ret 4500000%float /\
  Part002.unboxed Scenario.parse_number
    (VObject [("Minimum Price", VString "4500000")])
    "Minimum Price" "$numberInt" = ret 0%float.
Proof. repeat split. Qed.

(** The mapping throws on a [null] element of [documents]. *)
Example null_document_throws :
  PropertyListings.processedData Scenario.parse_number (Spec.documents_body [VNull])
  = TypeError "Cannot read properties of null (reading '_id')".
Proof. reflexivity. Qed.

(** A price that is not a number is in no range. *)
Example nan_price_is_filtered_out :
  Part002.matchesPrice (0%float, 100000000%float)
    (Part002.mkProperty "id" "Lake View" "Pune" PrimFloat.nan 0%float 0%float 0%float
       "N/A" "Unknown" "" "#" [] 0%float 0%float) = false.
Proof. vm_compute. reflexivity. Qed.

Example search_in_capitals_keeps_villa :
  PropertyListings.filteredProperties
    (PropertyListings.filterProperties Scenario.searching_villa) = [Scenario.villa].
Proof. vm_compute. reflexivity. Qed.

Example error_screen_after_failed_fetch :
  option_map PropertyListings.render
    (PropertyListings.fetchProperties Scenario.parse_number
       (ret (mkHttpResponse 500 "{}" (ret (VObject [])))) PropertyListings.initial)
  = Some (PropertyListings.ErrorScreen "Failed to fetch data: 500 - {}").
Proof. vm_compute. reflexivity. Qed.

(** A query string asking for more is not read: 700 stored listings, 500
    sent, for either request. *)
Example query_string_changes_nothing :
  let drv := Scenario.serving (repeat Scenario.bare_listing 700) in
  let sent := fst (Part000.GET drv Scenario.configured None Scenario.other_request) in
  sent = fst (Part000.GET drv Scenario.configured None Scenario.request) /\
  status sent = 200 /\
  match body sent with
  | VObject [(_, VArray docs)] => length docs
  | _ => 0
  end = 500.
Proof. vm_compute. repeat split. Qed.

(** From the database to the screen: one stored listing, one card. *)
Example one_listing_one_card :
  let sent :=
    fst (Part000.GET (Scenario.serving [Scenario.bare_listing]) Scenario.configured None
           Scenario.request) in
  option_map PropertyListings.render
    (PropertyListings.loaded Scenario.parse_number (ret (Scenario.received sent))
       PropertyListings.initial)
  = Some (PropertyListings.Cards
            [PropertyListings.mkProperty "65a1f0c2e4b0a1b2c3d4e5f6" "Villa Serena" "Unknown"
               "N/A" "N/A" "" "#" [] 0%float 0%float "N/A" "Unknown" [] "N/A" "N/A"]).
Proof. vm_compute. reflexivity. Qed.

(** Typing a search term that matches nothing empties the screen; clearing
    it brings the card back. *)
Example search_then_clear :
  let st := PropertyListings.edit (PropertyListings.TypeSearch "pune") Scenario.searching_villa in
  PropertyListings.render st = PropertyListings.EmptyState /\
  PropertyListings.render (PropertyListings.edit (PropertyListings.TypeSearch "") st)
  = PropertyListings.Cards [Scenario.villa].
Proof. vm_compute. split; reflexivity. Qed.

End Examples.

(** * The claims of the specification *)

Section Claims.
Import Js Mongo Http.

(** C1. A response of either handler with status 200 carries at most 500
    documents; the view that receives it builds one record per document, so
    at most 500 records, and that many are held in its state. *)
Theorem C1_at_most_500_documents
    (parseFloat parseInt parseFloat2 : JsValue -> float)
    (drv : Driver) (env : Env) (cached : option MongoClient) (request : NextRequest) :
  let sent000 := fst (Part000.GET drv env cached request) in
  let sent001 := fst (Part001.GET drv env cached request) in
  (status sent000 = 200 ->
   exists docs,
     body sent000 = Spec.documents_body docs /\ length docs <= 500 /\
     forall response, delivers sent000 response ->
       exists records,
         PropertyListings.fetch_attempt parseFloat (ret response) = ret records /\
         length records <= 500 /\
         forall st st',
           PropertyListings.fetchProperties parseFloat (ret response) st = Some st' ->
           length (PropertyListings.properties st') <= 500) /\
  (status sent001 = 200 ->
   exists docs,
     body sent001 = Spec.documents_body docs /\ length docs <= 500 /\
     forall response, delivers sent001 response ->
       exists records,
         Part002.fetch_attempt parseInt parseFloat2 (ret response) = ret records /\
         length records <= 500 /\
         forall st st',
           Part002.fetchProperties parseInt parseFloat2 (ret response) st = Some st' ->
           length (Part002.properties st') <= 500).
Proof.
  cbv zeta. split.
  - rewrite GET000_response.
    destruct (Part000.attempt drv _) as [e|sent] eqn:Hattempt; [discriminate|].
    intros H200. apply attempt000_returns in Hattempt as (docs & Hlen & Hdocs & ->).
    exists docs.
    split; [reflexivity|]. split; [exact Hlen|].
    intros response Hdel.
    destruct (processedData_listing parseFloat _ Hdocs) as (records & Hrec & Hn).
    rewrite length_map in Hn.
    assert (Hfetch : PropertyListings.fetch_attempt parseFloat (ret response) = ret records).
    { rewrite (delivered_attempt_listing parseFloat _ response H200 Hdel). exact Hrec. }
    exists records. split; [exact Hfetch|]. split; [lia|].
    intros st st' Hst.
    destruct (fetchProperties_listing_length _ _ _ _ _ Hfetch Hst) as [Hl _]. lia.
  - rewrite GET001_response.
    destruct (Part001.attempt drv _) as [e|sent] eqn:Hattempt; [discriminate|].
    intros H200. apply attempt001_returns in Hattempt as (docs & Hlen & Hdocs & ->).
    exists docs.
    split; [reflexivity|]. split; [exact Hlen|].
    intros response Hdel.
    destruct (processedData_apartment parseInt parseFloat2 _ Hdocs) as (records & Hrec & Hn).
    rewrite length_map in Hn.
    assert (Hfetch : Part002.fetch_attempt parseInt parseFloat2 (ret response) = ret records).
    { rewrite (delivered_attempt_apartment parseInt parseFloat2 _ response H200 Hdel).
      exact Hrec. }
    exists records. split; [exact Hfetch|]. split; [lia|].
    intros st st' Hst.
    destruct (fetchProperties_apartment_length _ _ _ _ _ _ Hfetch Hst) as [Hl _]. lia.
Qed.

(** C2. Either handler answers with status 200 and a body [{documents}], or
    with status 500 and a body [{error}] holding a string, and with nothing
    else.  The second answer is given whenever the [try] block throws, which
    it does when the connection string is missing (second handler), when the
    client cannot be built, when connecting fails and when the query fails. *)
Theorem C2_status_200_or_500
    (drv : Driver) (env : Env) (cached : option MongoClient) (request : NextRequest) :
  let sent000 := fst (Part000.GET drv env cached request) in
  let sent001 := fst (Part001.GET drv env cached request) in
  let failed e := mkResponse 500 (Spec.error_body (message_or "Failed to fetch properties" e)) in
  (Spec.is_documents_response sent000 \/ Spec.is_error_response sent000) /\
  (Spec.is_documents_response sent001 \/ Spec.is_error_response sent001) /\
  (forall e, fst (Part000.getMongoClient drv env cached) = throw e -> sent000 = failed e) /\
  (forall e, fst (Part001.getMongoClient drv env cached) = throw e -> sent001 = failed e) /\
  (MONGODB_URI env = None -> cached = None ->
   sent001 = failed (ThrownError "MONGODB_URI environment variable not configured")) /\
  (forall client e,
     fst (Part000.getMongoClient drv env cached) = ret client ->
     connect drv client = Some e -> sent000 = failed e) /\
  (forall client e,
     fst (Part001.getMongoClient drv env cached) = ret client ->
     connect drv client = Some e -> sent001 = failed e) /\
  (forall client e,
     fst (Part000.getMongoClient drv env cached) = ret client ->
     connect drv client = None ->
     contents drv client "proptrust" "listings" = throw e -> sent000 = failed e) /\
  (forall client e,
     fst (Part001.getMongoClient drv env cached) = ret client ->
     connect drv client = None ->
     contents drv client "ccube_research" "apartment" = throw e -> sent001 = failed e).
Proof.
  cbv zeta. rewrite GET000_response, GET001_response. repeat split.
  - destruct (Part000.attempt drv _) as [e|sent] eqn:Hattempt.
    + right. split; [reflexivity | eexists; reflexivity].
    + left. apply attempt000_returns in Hattempt as (docs & _ & _ & ->).
      split; [reflexivity | eexists; reflexivity].
  - destruct (Part001.attempt drv _) as [e|sent] eqn:Hattempt.
    + right. split; [reflexivity | eexists; reflexivity].
    + left. apply attempt001_returns in Hattempt as (docs & _ & _ & ->).
      split; [reflexivity | eexists; reflexivity].
  - intros e ->. reflexivity.
  - intros e ->. reflexivity.
  - intros Henv ->. now rewrite getMongoClient001_missing.
  - intros client e -> Hc. now rewrite (attempt000_connect_failure _ _ _ Hc).
  - intros client e -> Hc. now rewrite (attempt001_connect_failure _ _ _ Hc).
  - intros client e -> Hc Hq. now rewrite (attempt000_query_failure _ _ _ Hc Hq).
  - intros client e -> Hc Hq. now rewrite (attempt001_query_failure _ _ _ Hc Hq).
Qed.

(** C3. The first handler, run without [MONGODB_URI] against a driver that
    refuses a connection string without a MongoDB scheme: the answer has
    status 500, but its message is the driver's parse error, in which
    ["MONGODB_URI"] does not occur.  The guard that would report the missing
    variable is not reached, because [uri] is the non-empty string
    ["undefined&ssl=false"].  The second handler reports the variable. *)
Theorem C3_first_handler_hides_missing_uri :
  let sent000 :=
    fst (Part000.GET (Scenario.serving []) Scenario.unconfigured None Scenario.request) in
  let sent001 :=
    fst (Part001.GET (Scenario.serving []) Scenario.unconfigured None Scenario.request) in
  Part000.uri Scenario.unconfigured = "undefined&ssl=false" /\
  sent000 = mkResponse 500 (Spec.error_body Scenario.invalid_scheme) /\
  ~ Spec.contains Scenario.invalid_scheme "MONGODB_URI" /\
  sent001 =
    mkResponse 500 (Spec.error_body "MONGODB_URI environment variable not configured") /\
  Spec.contains "MONGODB_URI environment variable not configured" "MONGODB_URI".
Proof.
  cbv zeta. split; [reflexivity|]. split; [reflexivity|]. split.
  - apply not_includes_not_contains. vm_compute. reflexivity.
  - split; [reflexivity|]. apply includes_contains. vm_compute. reflexivity.
Qed.


(** C5. With the controls fixed, filtering the filtered list again yields the
    filtered list, in either view; and running [filterProperties] a second
    time leaves the state as it is. *)
Theorem C5_filtering_is_idempotent
    (st : PropertyListings.State) (st2 : Part002.State) :
  let once := PropertyListings.filterProperties st in
  let once2 := Part002.filterProperties st2 in
  PropertyListings.filteredProperties
    (PropertyListings.filterProperties
       (PropertyListings.setProperties (PropertyListings.filteredProperties once) st))
  = PropertyListings.filteredProperties once /\
  PropertyListings.filterProperties once = once /\
  Part002.filteredProperties
    (Part002.filterProperties (Part002.setProperties (Part002.filteredProperties once2) st2))
  = Part002.filteredProperties once2 /\
  Part002.filterProperties once2 = once2.
Proof.
  cbv zeta. split; [|split; [|split]].
  - unfold PropertyListings.filterProperties. simpl.
    change (PropertyListings.keeps (PropertyListings.setProperties _ st))
      with (PropertyListings.keeps st).
    apply filter_twice.
  - reflexivity.
  - unfold Part002.filterProperties. simpl.
    change (Part002.keeps (Part002.setProperties _ st2)) with (Part002.keeps st2).
    apply filter_twice.
  - reflexivity.
Qed.

(** C6, as stated, read with the case of the letters taken into account: the
    filter would keep exactly the records in which the search term itself
    occurs.  It does not: searching for the title in capitals keeps the
    record, in either view. *)
Lemma C6_case_sensitive_reading_fails :
  ~ (forall st p,
       In p (PropertyListings.filteredProperties (PropertyListings.filterProperties st)) <->
       In p (PropertyListings.properties st) /\ Spec.listing_kept_exact st p) /\
  ~ (forall st p,
       In p (Part002.filteredProperties (Part002.filterProperties st)) <->
       In p (Part002.properties st) /\ Spec.apartment_kept_exact st p).
Proof.
  split; intros H.
  - destruct (H Scenario.searching_villa Scenario.villa) as [Hkept _].
    destruct Hkept as [_ [Hsearch _]]; [left; reflexivity|].
    destruct Hsearch as [C|[C|C]]; revert C;
      apply not_includes_not_contains; vm_compute; reflexivity.
  - destruct (H Scenario.searching_lake Scenario.lake_view) as [Hkept _].
    destruct Hkept as [_ [Hsearch _]]; [left; reflexivity|].
    destruct Hsearch as [C|C]; revert C;
      apply not_includes_not_contains; vm_compute; reflexivity.
Qed.

(** C6, amended.  For a search term and stored records of ASCII text, the
    filtered list consists of exactly the stored records that pass every
    test of the view, the search test being insensitive to case (a part of
    the field reads as the term does when the case of the letters is
    disregarded):
    - first view: search in title, location or address; category equal to
      the selection; selected tag among the tags;
    - second view: search in name or location; status equal to the
      selection; minimum price within the range;
    the selection ["all"] passing every record.  The list is the stored list
    filtered by that predicate, in one pass and in the stored order. *)
Theorem C6_filter_keeps_matching_records
    (st : PropertyListings.State) (st2 : Part002.State) :
  ascii_text (PropertyListings.searchTerm st) = true ->
  Forall Spec.listing_ascii (PropertyListings.properties st) ->
  ascii_text (Part002.searchTerm st2) = true ->
  Forall Spec.apartment_ascii (Part002.properties st2) ->
  let out := PropertyListings.filteredProperties (PropertyListings.filterProperties st) in
  let out2 := Part002.filteredProperties (Part002.filterProperties st2) in
  (forall p, In p out <-> In p (PropertyListings.properties st) /\ Spec.listing_kept st p) /\
  (forall dec : (forall p, Decision (Spec.listing_kept st p)),
     out = @filter _ _ _ (Spec.listing_kept st) dec (PropertyListings.properties st)) /\
  (forall p, In p out2 <-> In p (Part002.properties st2) /\ Spec.apartment_kept st2 p) /\
  (forall dec : (forall p, Decision (Spec.apartment_kept st2 p)),
     out2 = @filter _ _ _ (Spec.apartment_kept st2) dec (Part002.properties st2)).
Proof.
  intros _ _ _ _. cbv zeta.
  change (PropertyListings.filteredProperties (PropertyListings.filterProperties st))
    with (List.filter (PropertyListings.keeps st) (PropertyListings.properties st)).
  change (Part002.filteredProperties (Part002.filterProperties st2))
    with (List.filter (Part002.keeps st2) (Part002.properties st2)).
  split; [|split; [|split]].
  - intros p. rewrite filter_In, keeps_listing. reflexivity.
  - intros dec. apply filter_by_predicate. intros p. apply keeps_listing.
  - intros p. rewrite filter_In, keeps_apartment. reflexivity.
  - intros dec. apply filter_by_predicate. intros p. apply keeps_apartment.
Qed.



(** C8. When the query reaches an empty collection (the client is obtained,
    connecting succeeds and the collection holds no document), either handler
    answers with status 200 and the body [{documents: []}]; and a view that
    receives this answer ends with an empty list and renders the empty-state
    message, not cards, before and after its filter effect has run. *)
Theorem C8_empty_collection_gives_empty_state
    (parseFloat parseInt parseFloat2 : JsValue -> float)
    (drv : Driver) (env : Env) (cached : option MongoClient) (request : NextRequest) :
  let empty := mkResponse 200 (Spec.documents_body []) in
  (forall client,
     fst (Part000.getMongoClient drv env cached) = ret client ->
     connect drv client = None ->
     contents drv client "proptrust" "listings" = ret [] ->
     fst (Part000.GET drv env cached request) = empty) /\
  (forall client,
     fst (Part001.getMongoClient drv env cached) = ret client ->
     connect drv client = None ->
     contents drv client "ccube_research" "apartment" = ret [] ->
     fst (Part001.GET drv env cached request) = empty) /\
  (forall response, delivers empty response ->
     (forall st, exists st',
        PropertyListings.fetchProperties parseFloat (ret response) st = Some st' /\
        PropertyListings.properties st' = [] /\
        PropertyListings.render st' = PropertyListings.EmptyState /\
        PropertyListings.render (PropertyListings.filterProperties st')
          = PropertyListings.EmptyState) /\
     (forall st, exists st',
        Part002.fetchProperties parseInt parseFloat2 (ret response) st = Some st' /\
        Part002.properties st' = [] /\
        Part002.render st' = Part002.EmptyState /\
        Part002.render (Part002.filterProperties st') = Part002.EmptyState)).
Proof.
  cbv zeta. split; [|split].
  - intros client Hclient Hc Hq. rewrite GET000_response, Hclient.
    now rewrite (attempt000_empty _ _ Hc Hq).
  - intros client Hclient Hc Hq. rewrite GET001_response, Hclient.
    now rewrite (attempt001_empty _ _ Hc Hq).
  - intros response [Hstatus Hjson]. simpl in Hstatus, Hjson. split; intros st.
    + unfold PropertyListings.fetchProperties, PropertyListings.fetch_attempt, ok.
      simpl. rewrite Hstatus, Hjson. simpl. eexists. split; [reflexivity|].
      repeat split.
    + unfold Part002.fetchProperties, Part002.fetch_attempt, ok.
      simpl. rewrite Hstatus, Hjson. simpl. eexists. split; [reflexivity|].
      repeat split.
Qed.

(** C9. The answer of either handler, and the client it leaves in the cache,
    are the same for any two requests. *)
Theorem C9_answer_independent_of_request
    (drv : Driver) (env : Env) (cached : option MongoClient)
    (request request' : NextRequest) :
  Part000.GET drv env cached request = Part000.GET drv env cached request' /\
  Part001.GET drv env cached request = Part001.GET drv env cached request'.
Proof. split; unfold Part000.GET, Part001.GET; reflexivity. Qed.

(** C10. In either view the filtered list is a sublist of the stored list:
    its records are records of the stored list, in the same relative order,
    none of them more often than there; so it is no longer than the stored
    list and has no duplicate if the stored list has none. *)
Theorem C10_filtered_is_sublist
    (st : PropertyListings.State) (st2 : Part002.State) :
  let out := PropertyListings.filteredProperties (PropertyListings.filterProperties st) in
  let out2 := Part002.filteredProperties (Part002.filterProperties st2) in
  (out `sublist_of` PropertyListings.properties st /\
   (forall p, In p out -> In p (PropertyListings.properties st)) /\
   length out <= length (PropertyListings.properties st) /\
   (NoDup (PropertyListings.properties st) -> NoDup out)) /\
  (out2 `sublist_of` Part002.properties st2 /\
   (forall p, In p out2 -> In p (Part002.properties st2)) /\
   length out2 <= length (Part002.properties st2) /\
   (NoDup (Part002.properties st2) -> NoDup out2)).
Proof.
  cbv zeta. split.
  - pose proof (filter_is_sublist (PropertyListings.keeps st) (PropertyListings.properties st))
      as Hsub.
    change (PropertyListings.filteredProperties (PropertyListings.filterProperties st))
      with (List.filter (PropertyListings.keeps st) (PropertyListings.properties st)).
    split; [exact Hsub|]. split; [|split].
    + intros p Hp. apply filter_In in Hp. tauto.
    + now apply sublist_length.
    + intros Hnd. now apply (sublist_NoDup _ _ Hnd).
  - pose proof (filter_is_sublist (Part002.keeps st2) (Part002.properties st2)) as Hsub.
    change (Part002.filteredProperties (Part002.filterProperties st2))
      with (List.filter (Part002.keeps st2) (Part002.properties st2)).
    split; [exact Hsub|]. split; [|split].
    + intros p Hp. apply filter_In in Hp. tauto.
    + now apply sublist_length.
    + intros Hnd. now apply (sublist_NoDup _ _ Hnd).
Qed.

End Claims.

(** * The claims at concrete inputs *)

Section Witnesses.
Import Js Mongo Http.

(** C1 on a database holding one listing. *)
Lemma C1_witness_one_listing :
  let sent :=
    fst (Part000.GET (Scenario.serving [Scenario.bare_listing]) Scenario.configured None
           Scenario.request) in
  status sent = 200 /\
  exists docs, body sent = Spec.documents_body docs /\ length docs <= 500.
Proof.
  cbv zeta. split; [reflexivity|].
  destruct (C1_at_most_500_documents Scenario.parse_number Scenario.parse_number
              Scenario.parse_number (Scenario.serving [Scenario.bare_listing])
              Scenario.configured None Scenario.request) as [H _].
  destruct (H eq_refl) as (docs & Hbody & Hlen & _).
  exists docs. split; assumption.
Defined.

(** C2 on the second handler without its connection string. *)
Lemma C2_witness_missing_uri :
  MONGODB_URI Scenario.unconfigured = None /\
  fst (Part001.GET (Scenario.serving []) Scenario.unconfigured None Scenario.request)
  = mkResponse 500 (Spec.error_body "MONGODB_URI environment variable not configured").
Proof.
  split; [reflexivity|].
  destruct (C2_status_200_or_500 (Scenario.serving []) Scenario.unconfigured None
              Scenario.request) as (_ & _ & _ & _ & H & _).
  exact (H eq_refl eq_refl).
Defined.


(** C6 on the search for ["VILLA"] among records that hold the title
    ["Villa"]: the record is shown, and the term occurs in its title up to
    case. *)
Lemma C6_witness_villa_in_capitals :
  ascii_text (PropertyListings.searchTerm Scenario.searching_villa) = true /\
  Forall Spec.listing_ascii (PropertyListings.properties Scenario.searching_villa) /\
  ascii_text (Part002.searchTerm Scenario.searching_lake) = true /\
  Forall Spec.apartment_ascii (Part002.properties Scenario.searching_lake) /\
  Spec.listing_kept Scenario.searching_villa Scenario.villa /\
  Spec.apartment_kept Scenario.searching_lake Scenario.lake_view.
Proof.
  assert (Ht : ascii_text (PropertyListings.searchTerm Scenario.searching_villa) = true)
    by reflexivity.
  assert (Hp : Forall Spec.listing_ascii (PropertyListings.properties Scenario.searching_villa)).
  { constructor; [|constructor]. repeat split. }
  assert (Ht2 : ascii_text (Part002.searchTerm Scenario.searching_lake) = true)
    by reflexivity.
  assert (Hp2 : Forall Spec.apartment_ascii (Part002.properties Scenario.searching_lake)).
  { constructor; [|constructor]. repeat split. }
  split; [exact Ht|]. split; [exact Hp|]. split; [exact Ht2|]. split; [exact Hp2|].
  destruct (C6_filter_keeps_matching_records Scenario.searching_villa Scenario.searching_lake
              Ht Hp Ht2 Hp2) as (H & _ & H2 & _).
  split.
  - apply (H Scenario.villa). left. reflexivity.
  - apply (H2 Scenario.lake_view). left. reflexivity.
Defined.


(** C8 on an empty database. *)
Lemma C8_witness_empty_database :
  let empty := mkResponse 200 (Spec.documents_body []) in
  fst (Part000.GET (Scenario.serving []) Scenario.configured None Scenario.request) = empty /\
  fst (Part001.GET (Scenario.serving []) Scenario.configured None Scenario.request) = empty /\
  delivers empty (Scenario.received empty) /\
  (exists st',
     PropertyListings.fetchProperties Scenario.parse_number (ret (Scenario.received empty))
       PropertyListings.initial = Some st' /\
     PropertyListings.render (PropertyListings.filterProperties st')
     = PropertyListings.EmptyState).
Proof.
  cbv zeta.
  destruct (C8_empty_collection_gives_empty_state Scenario.parse_number Scenario.parse_number
              Scenario.parse_number (Scenario.serving []) Scenario.configured None
              Scenario.request) as (H000 & H001 & Hview).
  split; [exact (H000 _ eq_refl eq_refl eq_refl)|].
  split; [exact (H001 _ eq_refl eq_refl eq_refl)|].
  assert (Hdel : delivers (mkResponse 200 (Spec.documents_body []))
                   (Scenario.received (mkResponse 200 (Spec.documents_body [])))).
  { split; reflexivity. }
  split; [exact Hdel|].
  destruct (proj1 (Hview _ Hdel) PropertyListings.initial) as (st' & Hst & _ & _ & Hrender).
  exists st'. split; assumption.
Defined.

(** C10 on a state that holds one record. *)
Lemma C10_witness_single_record :
  NoDup (PropertyListings.properties Scenario.searching_villa) /\
  NoDup (PropertyListings.filteredProperties
           (PropertyListings.filterProperties Scenario.searching_villa)).
Proof.
  assert (Hnd : NoDup (PropertyListings.properties Scenario.searching_villa)).
  { apply NoDup_singleton. }
  split; [exact Hnd|].
  destruct (C10_filtered_is_sublist Scenario.searching_villa Scenario.searching_lake)
    as [(_ & _ & _ & H) _].
  exact (H Hnd).
Defined.

End Witnesses.

(** * Further properties of the code *)

(** ** The handlers and their cache *)

Section CacheFacts.
Import Js Mongo.

(** A handler that leaves a given cached client in place answers a run of
    invocations one by one from that same cache. *)
Lemma serve_from_cached (handler : Handler) drv env client requests :
  (forall r, snd (handler drv env (Some client) r) = Some client) ->
  serve handler drv env (Some client) requests =
  (map (fun r => fst (handler drv env (Some client) r)) requests, Some client).
Proof.
  intros Hkeep. induction requests as [|r rs IH]; [reflexivity|].
  cbn [serve]. specialize (Hkeep r).
  destruct (handler drv env (Some client) r) as [response cached'] eqn:E.
  simpl in Hkeep. subst cached'. rewrite IH. cbn [map]. rewrite E. reflexivity.
Qed.

Lemma GET000_cached drv env client request :
  Part000.GET drv env (Some client) request =
  (match Part000.attempt drv (ret client) with
   | inr response => response
   | inl error => Part000.on_error error
   end, Some client).
Proof. reflexivity. Qed.

Lemma GET001_cached drv env client request :
  Part001.GET drv env (Some client) request =
  (match Part001.attempt drv (ret client) with
   | inr response => response
   | inl error => Part001.on_error error
   end, Some client).
Proof. reflexivity. Qed.

Lemma toArray_limit_firstn n cur :
  toArray (limit (S n) cur) = bind (cursor_source cur) (fun docs => ret (firstn (S n) docs)).
Proof. reflexivity. Qed.

(** Documents of the declared type are all formatted. *)
Lemma format_stored_documents (typed : list WithId) :
  mapM Part000.format_document (map stored typed) = ret (map Part000.formatProperty typed).
Proof.
  induction typed as [|property typed IH]; [reflexivity|].
  cbn [map mapM]. rewrite format_document_stored, IH. reflexivity.
Qed.

Lemma attempt000_documents drv client docs :
  connect drv client = None ->
  contents drv client "proptrust" "listings" = ret docs ->
  Part000.attempt drv (ret client) =
  bind (mapM Part000.format_document (firstn 500 docs)) (fun formattedProperties =>
  ret (mkResponse 200 (Spec.documents_body formattedProperties))).
Proof.
  intros Hc Hq. unfold Part000.attempt, await_connect. cbn [bind ret]. rewrite Hc.
  cbn [bind ret throw]. rewrite toArray_limit_firstn. unfold find, collection.
  cbn [cursor_source coll_client coll_db coll_name]. rewrite Hq. reflexivity.
Qed.

Lemma attempt001_documents drv client docs :
  connect drv client = None ->
  contents drv client "ccube_research" "apartment" = ret docs ->
  Part001.attempt drv (ret client) =
  ret (mkResponse 200 (Spec.documents_body (map document_value (firstn 500 docs)))).
Proof.
  intros Hc Hq. unfold Part001.attempt, await_connect. cbn [bind ret]. rewrite Hc.
  cbn [bind ret throw]. rewrite toArray_limit_firstn. unfold find, collection.
  cbn [cursor_source coll_client coll_db coll_name]. rewrite Hq. reflexivity.
Qed.

(** X1. Once a client is cached it stays cached, unchanged, through any run
    of invocations of either handler, whether they succeed or fail; and from
    then on neither the environment variable nor the driver's constructor
    has any influence on the answers. *)
Theorem X1_cached_client_is_kept
    (drv : Driver) (env env' : Env) (construct' : string -> option Thrown)
    (client : MongoClient) (requests : list NextRequest) :
  let drv' := mkDriver construct' (connect drv) (contents drv) in
  snd (serve Part000.GET drv env (Some client) requests) = Some client /\
  snd (serve Part001.GET drv env (Some client) requests) = Some client /\
  serve Part000.GET drv' env' (Some client) requests
  = serve Part000.GET drv env (Some client) requests /\
  serve Part001.GET drv' env' (Some client) requests
  = serve Part001.GET drv env (Some client) requests.
Proof.
  cbv zeta.
  rewrite !(serve_from_cached Part000.GET) by (intros r; reflexivity).
  rewrite !(serve_from_cached Part001.GET) by (intros r; reflexivity).
  split; [reflexivity|]. split; [reflexivity|]. split; reflexivity.
Qed.

(** X2. A cached client does not spare the connection attempt: if
    [connect()] is refused for the cached client, every invocation of either
    handler answers with status 500 and the message of that refusal, and the
    client stays in the cache. *)
Theorem X2_cached_client_reconnects_each_time
    (drv : Driver) (env : Env) (client : MongoClient) (e : Thrown)
    (requests : list NextRequest) :
  connect drv client = Some e ->
  let failed :=
    mkResponse 500 (Spec.error_body (message_or "Failed to fetch properties" e)) in
  serve Part000.GET drv env (Some client) requests
  = (map (fun _ => failed) requests, Some client) /\
  serve Part001.GET drv env (Some client) requests
  = (map (fun _ => failed) requests, Some client).
Proof.
  intros Hc. cbv zeta.
  rewrite (serve_from_cached Part000.GET) by (intros r; reflexivity).
  rewrite (serve_from_cached Part001.GET) by (intros r; reflexivity).
  split; f_equal; apply map_ext; intros r.
  - rewrite GET000_cached. cbn [fst].
    now rewrite (attempt000_connect_failure _ _ _ Hc).
  - rewrite GET001_cached. cbn [fst].
    now rewrite (attempt001_connect_failure _ _ _ Hc).
Qed.

(** X3. With an empty cache, a connection string the constructor refuses
    leaves the cache empty; one it accepts is cached at once, before
    connecting, so the client stays cached even when the connection is then
    refused and the invocation answers 500. *)
Theorem X3_client_is_cached_before_connecting
    (drv : Driver) (env : Env) (request : NextRequest) :
  let failed e :=
    mkResponse 500 (Spec.error_body (message_or "Failed to fetch properties" e)) in
  (forall e,
     construct drv (Part000.uri env) = Some e ->
     Part000.GET drv env None request = (failed e, None)) /\
  (forall e,
     construct drv (Part000.uri env) = None ->
     connect drv (mkClient (Part000.uri env)) = Some e ->
     Part000.GET drv env None request = (failed e, Some (mkClient (Part000.uri env)))) /\
  (forall s e,
     MONGODB_URI env = Some s -> is_empty s = false ->
     construct drv s = Some e ->
     Part001.GET drv env None request = (failed e, None)) /\
  (forall s e,
     MONGODB_URI env = Some s -> is_empty s = false ->
     construct drv s = None -> connect drv (mkClient s) = Some e ->
     Part001.GET drv env None request = (failed e, Some (mkClient s))).
Proof.
  cbv zeta. split; [|split; [|split]].
  - intros e Hn. unfold Part000.GET. rewrite getMongoClient000_uncached, Hn. reflexivity.
  - intros e Hn Hc. unfold Part000.GET. rewrite getMongoClient000_uncached, Hn.
    now rewrite (attempt000_connect_failure _ _ _ Hc).
  - intros s e Hs Hne Hn. unfold Part001.GET, Part001.getMongoClient, Part001.uri.
    rewrite Hs, Hne, Hn. reflexivity.
  - intros s e Hs Hne Hn Hc. unfold Part001.GET, Part001.getMongoClient, Part001.uri.
    rewrite Hs, Hne, Hn. now rewrite (attempt001_connect_failure _ _ _ Hc).
Qed.

(** X4. When the query succeeds and each of the first 500 stored documents
    has an [ObjectId] under [_id] (the type the driver declares), the
    documents of the first handler's answer are the images of those
    documents, one for one and in the stored order, and a collection of at
    most 500 such documents is sent whole.  When one of the first 500 has an
    [_id] of another kind, the callback throws and the first handler answers
    with status 500 and an error.  The second handler sends the first 500
    stored documents as they are, whatever their [_id]. *)
Theorem X4_documents_are_the_first_500_in_order
    (drv : Driver) (env : Env) (cached : option MongoClient) (request : NextRequest)
    (docs : list Document) :
  (forall client,
     fst (Part000.getMongoClient drv env cached) = ret client ->
     connect drv client = None ->
     contents drv client "proptrust" "listings" = ret docs ->
     (forall typed : list WithId,
        firstn 500 docs = map stored typed ->
        fst (Part000.GET drv env cached request)
        = mkResponse 200 (Spec.documents_body (map Part000.formatProperty typed))) /\
     (forall typed : list WithId,
        docs = map stored typed -> length docs <= 500 ->
        fst (Part000.GET drv env cached request)
        = mkResponse 200 (Spec.documents_body (map Part000.formatProperty typed))) /\
     (Exists (fun d => forall oid, doc_id d <> VObjectId oid) (firstn 500 docs) ->
      Spec.is_error_response (fst (Part000.GET drv env cached request)))) /\
  (forall client,
     fst (Part001.getMongoClient drv env cached) = ret client ->
     connect drv client = None ->
     contents drv client "ccube_research" "apartment" = ret docs ->
     fst (Part001.GET drv env cached request)
     = mkResponse 200 (Spec.documents_body (map document_value (firstn 500 docs))) /\
     (length docs <= 500 ->
      fst (Part001.GET drv env cached request)
      = mkResponse 200 (Spec.documents_body (map document_value docs)))).
Proof.
  split; intros client Hclient Hc Hq.
  - rewrite GET000_response, Hclient, (attempt000_documents _ _ _ Hc Hq).
    split; [|split].
    + intros typed ->. now rewrite format_stored_documents.
    + intros typed Htyped Hlen. rewrite firstn_all2 by exact Hlen.
      rewrite Htyped. now rewrite format_stored_documents.
    + intros Hbad.
      destruct (mapM_throws Part000.format_document (firstn 500 docs)) as [e ->].
      * eapply Exists_impl; [exact Hbad|]. intros d Hd.
        destruct (format_document_other d Hd) as [message ->].
        unfold TypeError. eauto.
      * split; [reflexivity | eexists; reflexivity].
  - rewrite GET001_response, Hclient, (attempt001_documents _ _ _ Hc Hq).
    split; [reflexivity|]. intros Hlen. now rewrite firstn_all2.
Qed.

End CacheFacts.

(** ** What the first handler sends, and what comes back *)

Section FormatFacts.
Import Js Mongo.

Ltac other_key H :=
  repeat match goal with
         | |- context [String.eqb ?k ?name] =>
             destruct (String.eqb_spec k name) as [->|_];
             [exfalso; apply H; simpl; tauto|]
         end.

(** X5. The first handler sends the properties its schema names and no
    other: reading any other name off a formatted document, off its
    [fields] or off its [taxonomies], yields [undefined], whatever the
    stored document holds. *)
Theorem X5_formatted_document_has_named_properties_only
    (property : WithId) (k : string) :
  (~ In k ["_id"; "title"; "author_id"; "meta_description"; "project_description";
           "fields"; "taxonomies"; "scraped_at"] ->
   opt_member (Part000.formatProperty property) k = VUndefined) /\
  (~ In k ["price_sqft"; "latitude"; "longitude"; "address"; "project_highlights";
           "rera_url"; "rera_id"; "about_project"; "nearest_school"; "nearest_bank";
           "nearest_hospital"; "starting_bsp"; "project_detail"; "listing_url";
           "photo_url"; "amenities"] ->
   opt_member (opt_member (Part000.formatProperty property) "fields") k = VUndefined) /\
  (~ In k ["at_biz_dir-category"; "at_biz_dir-location"; "at_biz_dir-tags"] ->
   opt_member (opt_member (Part000.formatProperty property) "taxonomies") k = VUndefined).
Proof.
  split; [|split]; intros H; unfold Part000.formatProperty;
    cbn [opt_member lookup_prop String.eqb Ascii.eqb Bool.eqb fst snd];
    other_key H; reflexivity.
Qed.

(** X6. The identifier survives the way from the database to the record of
    the view: in the first pipeline the record's [_id] is the hexadecimal
    string of the stored [ObjectId] (an [ObjectId] prints as a non-empty
    string), in the second pipeline likewise. *)
Theorem X6_identifier_round_trip
    (parseFloat parseInt parseFloat2 : JsValue -> float) (property : WithId) :
  is_empty (toHexString (_id property)) = false ->
  (exists p,
     PropertyListings.processDoc parseFloat (json_element (Part000.formatProperty property))
       = ret p /\
     PropertyListings.Any._id p = VString (toHexString (_id property))) /\
  (exists p,
     Part002.processDoc parseInt parseFloat2 (json_element (doc_value property)) = ret p /\
     Part002.Any._id p = VString (toHexString (_id property))).
Proof.
  intros Hhex. split.
  - eexists. split; [apply processDoc_listing; reflexivity|].
    cbv zeta. simpl. unfold js_or. simpl. now rewrite Hhex.
  - eexists. split; [apply processDoc_apartment; reflexivity|].
    reflexivity.
Qed.

(** X7. The second handler treats an empty [MONGODB_URI] like a missing
    one: in both cases every invocation of a run answers with status 500 and
    the message that names the variable, the driver is never asked for a
    client, and the cache stays empty. *)
Theorem X7_second_handler_reports_missing_or_empty_uri
    (drv : Driver) (env : Env) (requests : list NextRequest) :
  MONGODB_URI env = None \/ MONGODB_URI env = Some "" ->
  serve Part001.GET drv env None requests =
  (map (fun _ =>
          mkResponse 500
            (Spec.error_body "MONGODB_URI environment variable not configured"))
       requests, None).
Proof.
  intros Henv. induction requests as [|r rs IH]; [reflexivity|].
  cbn [serve].
  assert (Hstep : Part001.GET drv env None r =
                  (mkResponse 500
                     (Spec.error_body "MONGODB_URI environment variable not configured"),
                   None)).
  { unfold Part001.GET, Part001.getMongoClient, Part001.uri.
    destruct Henv as [-> | ->]; reflexivity. }
  rewrite Hstep, IH. reflexivity.
Qed.

End FormatFacts.

(** ** How a fetch ends *)

Section FetchFacts.
Import Js Mongo Http.

Lemma fetch_listing_outcome parseFloat fetched st st' :
  PropertyListings.fetchProperties parseFloat fetched st = Some st' ->
  PropertyListings.loading st' = false /\
  PropertyListings.searchTerm st' = PropertyListings.searchTerm st /\
  PropertyListings.categoryFilter st' = PropertyListings.categoryFilter st /\
  PropertyListings.tagFilter st' = PropertyListings.tagFilter st /\
  (forall e,
     PropertyListings.fetch_attempt parseFloat fetched = throw e ->
     PropertyListings.properties st' = PropertyListings.properties st /\
     PropertyListings.filteredProperties st' = PropertyListings.filteredProperties st /\
     PropertyListings.error st' = Some (message_or "Unknown error occurred" e)) /\
  (forall records,
     PropertyListings.fetch_attempt parseFloat fetched = ret records ->
     PropertyListings.error st' = None /\
     PropertyListings.asProperties records = Some (PropertyListings.properties st') /\
     PropertyListings.filteredProperties st' = PropertyListings.properties st').
Proof.
  unfold PropertyListings.fetchProperties. cbv zeta.
  destruct (PropertyListings.fetch_attempt parseFloat fetched) as [e|records].
  - intros H. injection H as <-. simpl. unfold throw, ret.
    do 4 (split; [reflexivity|]). split.
    + intros e' He'. injection He' as <-. repeat split.
    + intros r Hr. discriminate Hr.
  - destruct (PropertyListings.asProperties records) as [ps|] eqn:E; intros H;
      [|discriminate H].
    injection H as <-. simpl. unfold throw, ret.
    do 4 (split; [reflexivity|]). split.
    + intros e' He'. discriminate He'.
    + intros r Hr. injection Hr as <-. split; [reflexivity|]. split; [exact E|reflexivity].
Qed.

Lemma fetch_apartment_outcome parseInt parseFloat fetched st st' :
  Part002.fetchProperties parseInt parseFloat fetched st = Some st' ->
  Part002.loading st' = false /\
  Part002.searchTerm st' = Part002.searchTerm st /\
  Part002.statusFilter st' = Part002.statusFilter st /\
  Part002.priceRange st' = Part002.priceRange st /\
  (forall e,
     Part002.fetch_attempt parseInt parseFloat fetched = throw e ->
     Part002.properties st' = Part002.properties st /\
     Part002.filteredProperties st' = Part002.filteredProperties st /\
     Part002.error st' = Some (message_or "Unknown error occurred" e)) /\
  (forall records,
     Part002.fetch_attempt parseInt parseFloat fetched = ret records ->
     Part002.error st' = None /\
     Part002.asProperties records = Some (Part002.properties st') /\
     Part002.filteredProperties st' = Part002.properties st').
Proof.
  unfold Part002.fetchProperties. cbv zeta.
  destruct (Part002.fetch_attempt parseInt parseFloat fetched) as [e|records].
  - intros H. injection H as <-. simpl. unfold throw, ret.
    do 4 (split; [reflexivity|]). split.
    + intros e' He'. injection He' as <-. repeat split.
    + intros r Hr. discriminate Hr.
  - destruct (Part002.asProperties records) as [ps|] eqn:E; intros H;
      [|discriminate H].
    injection H as <-. simpl. unfold throw, ret.
    do 4 (split; [reflexivity|]). split.
    + intros e' He'. discriminate He'.
    + intros r Hr. injection Hr as <-. split; [reflexivity|]. split; [exact E|reflexivity].
Qed.

End FetchFacts.

Section FetchProperties.
Import Js Mongo Http.

(** X8. However a fetch ends, the view is no longer loading and its controls
    are as they were.  If the fetch failed, the stored and the filtered list
    are left as they were and the error is set to the failure's message; if
    it succeeded, the error is cleared and both lists are the new records. *)
Theorem X8_how_a_fetch_ends
    (parseFloat parseInt parseFloat2 : JsValue -> float)
    (fetched fetched2 : Throws Response)
    (st st' : PropertyListings.State) (st2 st2' : Part002.State) :
  PropertyListings.fetchProperties parseFloat fetched st = Some st' ->
  Part002.fetchProperties parseInt parseFloat2 fetched2 st2 = Some st2' ->
  (PropertyListings.loading st' = false /\
   PropertyListings.searchTerm st' = PropertyListings.searchTerm st /\
   PropertyListings.categoryFilter st' = PropertyListings.categoryFilter st /\
   PropertyListings.tagFilter st' = PropertyListings.tagFilter st /\
   (forall e,
      PropertyListings.fetch_attempt parseFloat fetched = throw e ->
      PropertyListings.properties st' = PropertyListings.properties st /\
      PropertyListings.filteredProperties st' = PropertyListings.filteredProperties st /\
      PropertyListings.error st' = Some (message_or "Unknown error occurred" e)) /\
   (forall records,
      PropertyListings.fetch_attempt parseFloat fetched = ret records ->
      PropertyListings.error st' = None /\
      PropertyListings.asProperties records = Some (PropertyListings.properties st') /\
      PropertyListings.filteredProperties st' = PropertyListings.properties st')) /\
  (Part002.loading st2' = false /\
   Part002.searchTerm st2' = Part002.searchTerm st2 /\
   Part002.statusFilter st2' = Part002.statusFilter st2 /\
   Part002.priceRange st2' = Part002.priceRange st2 /\
   (forall e,
      Part002.fetch_attempt parseInt parseFloat2 fetched2 = throw e ->
      Part002.properties st2' = Part002.properties st2 /\
      Part002.filteredProperties st2' = Part002.filteredProperties st2 /\
      Part002.error st2' = Some (message_or "Unknown error occurred" e)) /\
   (forall records,
      Part002.fetch_attempt parseInt parseFloat2 fetched2 = ret records ->
      Part002.error st2' = None /\
      Part002.asProperties records = Some (Part002.properties st2') /\
      Part002.filteredProperties st2' = Part002.properties st2')).
Proof.
  intros H H2. split.
  - exact (fetch_listing_outcome _ _ _ _ H).
  - exact (fetch_apartment_outcome _ _ _ _ _ H2).
Qed.

(** X9. A response whose status is outside 200-299 puts either view on the
    error screen, with the message
    [Failed to fetch data: <status> - <body text>], and leaves the stored
    list as it was; every answer of the handlers' [catch] clause is such a
    response. *)
Theorem X9_failed_response_shows_error_screen
    (parseFloat parseInt parseFloat2 : JsValue -> float)
    (response : Response) (st : PropertyListings.State) (st2 : Part002.State) :
  ok response = false ->
  let message :=
    ("Failed to fetch data: " ++ show_status (resp_status response) ++ " - "
       ++ resp_text response)%string in
  (exists st',
     PropertyListings.fetchProperties parseFloat (ret response) st = Some st' /\
     PropertyListings.render st' = PropertyListings.ErrorScreen message /\
     PropertyListings.properties st' = PropertyListings.properties st) /\
  (exists st2',
     Part002.fetchProperties parseInt parseFloat2 (ret response) st2 = Some st2' /\
     Part002.render st2' = Part002.ErrorScreen message /\
     Part002.properties st2' = Part002.properties st2) /\
  (forall e received,
     delivers (Part000.on_error e) received \/ delivers (Part001.on_error e) received ->
     ok received = false /\ show_status (resp_status received) = "500").
Proof.
  intros Hok. cbv zeta. split; [|split].
  - unfold PropertyListings.fetchProperties, PropertyListings.fetch_attempt.
    cbn [bind ret]. rewrite Hok. cbn [negb throw]. eexists. split; [reflexivity|].
    split; reflexivity.
  - unfold Part002.fetchProperties, Part002.fetch_attempt.
    cbn [bind ret]. rewrite Hok. cbn [negb throw]. eexists. split; [reflexivity|].
    split; reflexivity.
  - intros e received [[Hs _]|[Hs _]]; unfold ok; rewrite Hs; split; reflexivity.
Qed.

(** X10. A 2xx response whose body parses to a value without a truthy
    [documents] property (for instance an [{error}] body) is a failure of its
    own: either view ends on the error screen with the message
    [No documents found in response]. *)
Theorem X10_body_without_documents_is_an_error
    (parseFloat parseInt parseFloat2 : JsValue -> float)
    (response : Response) (data : JsValue)
    (st : PropertyListings.State) (st2 : Part002.State) :
  ok response = true ->
  resp_json response = ret data ->
  nullish data = false ->
  truthy (opt_member data "documents") = false ->
  (exists st',
     PropertyListings.fetchProperties parseFloat (ret response) st = Some st' /\
     PropertyListings.render st'
     = PropertyListings.ErrorScreen "No documents found in response" /\
     PropertyListings.properties st' = PropertyListings.properties st) /\
  (exists st2',
     Part002.fetchProperties parseInt parseFloat2 (ret response) st2 = Some st2' /\
     Part002.render st2' = Part002.ErrorScreen "No documents found in response" /\
     Part002.properties st2' = Part002.properties st2).
Proof.
  intros Hok Hjson Hdata Hdocs. split.
  - unfold PropertyListings.fetchProperties, PropertyListings.fetch_attempt,
      PropertyListings.processedData.
    cbn [bind ret]. rewrite Hok, Hjson. cbn [negb bind ret].
    rewrite (member_defined _ _ Hdata). cbn [bind ret]. rewrite Hdocs.
    cbn [negb throw]. eexists. split; [reflexivity|]. split; reflexivity.
  - unfold Part002.fetchProperties, Part002.fetch_attempt, Part002.processedData.
    cbn [bind ret]. rewrite Hok, Hjson. cbn [negb bind ret].
    rewrite (member_defined _ _ Hdata). cbn [bind ret]. rewrite Hdocs.
    cbn [negb throw]. eexists. split; [reflexivity|]. split; reflexivity.
Qed.

(** X11. The mapping is all or nothing: one [null] or [undefined] element
    among the documents makes [data.documents.map(...)] throw, in either
    view, so that no record of the response is kept. *)
Theorem X11_one_null_document_fails_the_mapping
    (parseFloat parseInt parseFloat2 : JsValue -> float) (docs : list JsValue) :
  Exists (fun d => nullish d = true) docs ->
  (exists e,
     PropertyListings.processedData parseFloat (Spec.documents_body docs) = throw e) /\
  (exists e,
     Part002.processedData parseInt parseFloat2 (Spec.documents_body docs) = throw e).
Proof.
  intros Hnull. split.
  - unfold PropertyListings.processedData. simpl. apply mapM_throws.
    eapply Exists_impl; [exact Hnull|]. intros d Hd.
    now apply processDoc_listing_throws.
  - unfold Part002.processedData. simpl. apply mapM_throws.
    eapply Exists_impl; [exact Hnull|]. intros d Hd.
    now apply processDoc_apartment_throws.
Qed.

(** X12. The error screen needs a non-empty message.  A failure whose
    [Error] carries the empty message sets the error to the empty string,
    which [if (error)] takes for no error: the view then shows its list (or
    the empty state) as after a success. *)
Theorem X12_empty_error_message_shows_no_error_screen
    (parseFloat parseInt parseFloat2 : JsValue -> float)
    (fetched fetched2 : Throws Response)
    (st : PropertyListings.State) (st2 : Part002.State) :
  PropertyListings.fetch_attempt parseFloat fetched = throw (ThrownError "") ->
  Part002.fetch_attempt parseInt parseFloat2 fetched2 = throw (ThrownError "") ->
  (exists st',
     PropertyListings.fetchProperties parseFloat fetched st = Some st' /\
     PropertyListings.error st' = Some "" /\
     PropertyListings.render st' =
     match PropertyListings.filteredProperties st with
     | [] => PropertyListings.EmptyState
     | p :: ps => PropertyListings.Cards (p :: ps)
     end) /\
  (exists st2',
     Part002.fetchProperties parseInt parseFloat2 fetched2 st2 = Some st2' /\
     Part002.error st2' = Some "" /\
     Part002.render st2' =
     match Part002.filteredProperties st2 with
     | [] => Part002.EmptyState
     | p :: ps => Part002.Cards (p :: ps)
     end) /\
  (forall s m, PropertyListings.render s = PropertyListings.ErrorScreen m ->
               is_empty m = false /\ PropertyListings.loading s = false) /\
  (forall s m, Part002.render s = Part002.ErrorScreen m ->
               is_empty m = false /\ Part002.loading s = false).
Proof.
  intros H H2. split; [|split; [|split]].
  - unfold PropertyListings.fetchProperties. rewrite H. eexists.
    split; [reflexivity|]. split; reflexivity.
  - unfold Part002.fetchProperties. rewrite H2. eexists.
    split; [reflexivity|]. split; reflexivity.
  - intros s m. unfold PropertyListings.render.
    destruct (PropertyListings.loading s); [discriminate|].
    destruct (PropertyListings.error s) as [[|c rest]|];
      destruct (PropertyListings.filteredProperties s); try discriminate.
    all: intros Hm; injection Hm as <-; split; reflexivity.
  - intros s m. unfold Part002.render.
    destruct (Part002.loading s); [discriminate|].
    destruct (Part002.error s) as [[|c rest]|];
      destruct (Part002.filteredProperties s); try discriminate.
    all: intros Hm; injection Hm as <-; split; reflexivity.
Qed.

End FetchProperties.

(** ** Searching and selecting *)

Section SearchFacts.
Import Js.

Lemma includes_empty (s : string) : includes s "" = true.
Proof. destruct s; reflexivity. Qed.

Lemma lower_ascii_twice (c : ascii) : lower_ascii (lower_ascii c) = lower_ascii c.
Proof. destruct c as [[] [] [] [] [] [] [] []]; reflexivity. Qed.

Lemma toLowerCase_twice (s : string) : toLowerCase (toLowerCase s) = toLowerCase s.
Proof.
  induction s as [|c s IH]; simpl; [reflexivity|]. now rewrite lower_ascii_twice, IH.
Qed.

(** Occurrence is transitive, and lower-casing preserves it. *)
Lemma contains_trans (s t u : string) :
  Spec.contains s t -> Spec.contains t u -> Spec.contains s u.
Proof.
  intros (pre & post & ->) (pre' & post' & ->).
  exists (pre ++ pre')%string, (post' ++ post)%string.
  now rewrite !append_assoc.
Qed.

Lemma contains_lower (t u : string) :
  Spec.contains t u -> Spec.contains (toLowerCase t) (toLowerCase u).
Proof.
  intros (pre & post & ->). exists (toLowerCase pre), (toLowerCase post).
  now rewrite !toLowerCase_app.
Qed.

Lemma includes_weaken (s t u : string) :
  Spec.contains t u ->
  includes s (toLowerCase t) = true -> includes s (toLowerCase u) = true.
Proof.
  intros Htu H. apply includes_contains. apply includes_contains in H.
  eapply contains_trans; [exact H | now apply contains_lower].
Qed.

(** A stricter callback keeps a sublist of what a laxer one keeps. *)
Lemma filter_sublist_mono {A} (f g : A -> bool) (l : list A) :
  (forall a, f a = true -> g a = true) ->
  List.filter f l `sublist_of` List.filter g l.
Proof.
  intros Hfg. induction l as [|a l IH]; simpl; [constructor|].
  destruct (f a) eqn:Ef.
  - rewrite (Hfg a Ef). now apply sublist_skip.
  - destruct (g a); [now apply sublist_cons | exact IH].
Qed.

Lemma sublist_In {A} (l k : list A) (a : A) : l `sublist_of` k -> In a l -> In a k.
Proof.
  intros Hsub Hin. apply list_elem_of_In. apply list_elem_of_In in Hin.
  eapply elem_of_sublist; eassumption.
Qed.

Lemma edit_listing_properties e st :
  PropertyListings.properties (PropertyListings.edit e st) = PropertyListings.properties st.
Proof. destruct e; reflexivity. Qed.

Lemma edits_listing_properties es st :
  PropertyListings.properties (fold_left (fun s e => PropertyListings.edit e s) es st)
  = PropertyListings.properties st.
Proof.
  revert st. induction es as [|e es IH]; intros st; simpl; [reflexivity|].
  now rewrite IH, edit_listing_properties.
Qed.

Lemma edit_apartment_properties e st :
  Part002.properties (Part002.edit e st) = Part002.properties st.
Proof. destruct e; reflexivity. Qed.

Lemma edits_apartment_properties es st :
  Part002.properties (fold_left (fun s e => Part002.edit e s) es st)
  = Part002.properties st.
Proof.
  revert st. induction es as [|e es IH]; intros st; simpl; [reflexivity|].
  now rewrite IH, edit_apartment_properties.
Qed.

(** A comparison with [NaN] fails on either side. *)
Lemma nan_leb (x y : float) :
  is_nan x = true -> PrimFloat.leb x y = false /\ PrimFloat.leb y x = false.
Proof.
  unfold is_nan. rewrite FloatAxioms.eqb_spec, !FloatAxioms.leb_spec.
  unfold SFeqb, SFleb.
  destruct (Prim2SF x) as [s|s| |s m e]; simpl.
  - discriminate.
  - destruct s; discriminate.
  - intros _. split; [reflexivity|]. destruct (Prim2SF y); reflexivity.
  - destruct s; rewrite Z.compare_refl, Pos.compare_cont_refl; simpl; discriminate.
Qed.

Lemma matchesSearch_listing_weaken (t t' : string) p :
  Spec.contains t' t ->
  PropertyListings.matchesSearch t' p = true -> PropertyListings.matchesSearch t p = true.
Proof.
  intros Hc. unfold PropertyListings.matchesSearch. rewrite !orb_true_iff.
  intros [[H|H]|H]; [left; left|left; right|right];
    eapply includes_weaken; eassumption.
Qed.

Lemma matchesSearch_apartment_weaken (t t' : string) p :
  Spec.contains t' t ->
  Part002.matchesSearch t' p = true -> Part002.matchesSearch t p = true.
Proof.
  intros Hc. unfold Part002.matchesSearch. rewrite !orb_true_iff.
  intros [H|H]; [left|right]; eapply includes_weaken; eassumption.
Qed.

Lemma matchesSearch_listing_empty p : PropertyListings.matchesSearch "" p = true.
Proof.
  unfold PropertyListings.matchesSearch.
  change (toLowerCase "") with "". now rewrite includes_empty.
Qed.

Lemma matchesSearch_apartment_empty p : Part002.matchesSearch "" p = true.
Proof.
  unfold Part002.matchesSearch.
  change (toLowerCase "") with "". now rewrite includes_empty.
Qed.

Lemma matchesSearch_listing_lower t p :
  PropertyListings.matchesSearch (toLowerCase t) p = PropertyListings.matchesSearch t p.
Proof. unfold PropertyListings.matchesSearch. now rewrite toLowerCase_twice. Qed.

Lemma matchesSearch_apartment_lower t p :
  Part002.matchesSearch (toLowerCase t) p = Part002.matchesSearch t p.
Proof. unfold Part002.matchesSearch. now rewrite toLowerCase_twice. Qed.

(** X14. Filtering destroys nothing: no sequence of edits of the controls
    changes the stored list, and once the search box is emptied and the
    selections are back on ["all"], the first view shows every stored record
    again; the second view then shows every stored record whose minimum
    price is within the range. *)
Theorem X14_resetting_the_controls_restores_the_list
    (st : PropertyListings.State) (es : list PropertyListings.Edit)
    (st2 : Part002.State) (es2 : list Part002.Edit) :
  let st' := fold_left (fun s e => PropertyListings.edit e s) es st in
  let reset :=
    PropertyListings.edit (PropertyListings.SelectTag "all")
      (PropertyListings.edit (PropertyListings.SelectCategory "all")
         (PropertyListings.edit (PropertyListings.TypeSearch "") st')) in
  let st2' := fold_left (fun s e => Part002.edit e s) es2 st2 in
  let reset2 :=
    Part002.edit (Part002.SelectStatus "all")
      (Part002.edit (Part002.TypeSearch "") st2') in
  PropertyListings.properties st' = PropertyListings.properties st /\
  PropertyListings.filteredProperties reset = PropertyListings.properties st /\
  Part002.properties st2' = Part002.properties st2 /\
  Part002.filteredProperties reset2
  = List.filter (Part002.matchesPrice (Part002.priceRange st2')) (Part002.properties st2).
Proof.
  cbv zeta. split; [apply edits_listing_properties|]. split; [|split].
  - set (st' := fold_left _ es st).
    change (List.filter
              (fun p => PropertyListings.matchesSearch "" p
                        && PropertyListings.matchesCategory "all" p
                        && PropertyListings.matchesTag "all" p)
              (PropertyListings.properties st') = PropertyListings.properties st).
    unfold st'. rewrite edits_listing_properties.
    erewrite filter_ext; [apply filter_true|]. intros p.
    now rewrite matchesSearch_listing_empty.
  - apply edits_apartment_properties.
  - set (st2' := fold_left _ es2 st2).
    change (List.filter
              (fun p => Part002.matchesSearch "" p
                        && Part002.matchesStatus "all" p
                        && Part002.matchesPrice (Part002.priceRange st2') p)
              (Part002.properties st2')
            = List.filter (Part002.matchesPrice (Part002.priceRange st2'))
                (Part002.properties st2)).
    unfold st2'. rewrite edits_apartment_properties.
    apply filter_ext. intros p. now rewrite matchesSearch_apartment_empty.
Qed.

(** X15. In the second view a record whose minimum price is [NaN] is shown
    under no price range at all; and under the range the view starts with,
    0 to 100000000, a record priced above 100000000 is not shown, whatever
    the search term and the status. *)
Theorem X15_unpriced_and_costly_records_are_hidden
    (st : Part002.State) (p : Part002.Property) :
  (is_nan (Part002.Minimum_Price p) = true ->
   ~ In p (Part002.filteredProperties (Part002.filterProperties st))) /\
  (Part002.priceRange st = (0%float, 100000000%float) ->
   PrimFloat.leb (Part002.Minimum_Price p) 100000000 = false ->
   ~ In p (Part002.filteredProperties (Part002.filterProperties st))).
Proof.
  split.
  - intros Hnan Hin. apply filter_In in Hin as [_ Hk].
    unfold Part002.keeps, Part002.matchesPrice in Hk. cbv zeta in Hk.
    destruct (nan_leb _ (snd (Part002.priceRange st)) Hnan) as [Hle _].
    rewrite Hle, !andb_false_r in Hk. discriminate.
  - intros Hrange Hle Hin. apply filter_In in Hin as [_ Hk].
    unfold Part002.keeps, Part002.matchesPrice in Hk. cbv zeta in Hk.
    rewrite Hrange in Hk. cbn [fst snd] in Hk.
    rewrite Hle, !andb_false_r in Hk. discriminate.
Qed.

(** X16. For ASCII text, a search term that contains another narrows its
    result: the records shown for the longer term are a sublist of those
    shown for the term it contains, in either view.  So typing further
    characters never brings a record back. *)
Theorem X16_longer_search_term_narrows
    (st : PropertyListings.State) (st2 : Part002.State) (t t' : string) :
  Spec.contains t' t ->
  ascii_text t' = true ->
  Forall Spec.listing_ascii (PropertyListings.properties st) ->
  Forall Spec.apartment_ascii (Part002.properties st2) ->
  PropertyListings.filteredProperties
    (PropertyListings.filterProperties (PropertyListings.setSearchTerm t' st))
  `sublist_of`
  PropertyListings.filteredProperties
    (PropertyListings.filterProperties (PropertyListings.setSearchTerm t st)) /\
  Part002.filteredProperties (Part002.filterProperties (Part002.setSearchTerm t' st2))
  `sublist_of`
  Part002.filteredProperties (Part002.filterProperties (Part002.setSearchTerm t st2)).
Proof.
  intros Hc _ _ _. split.
  - apply filter_sublist_mono. intros p.
    change (PropertyListings.matchesSearch t' p
            && PropertyListings.matchesCategory (PropertyListings.categoryFilter st) p
            && PropertyListings.matchesTag (PropertyListings.tagFilter st) p = true ->
            PropertyListings.matchesSearch t p
            && PropertyListings.matchesCategory (PropertyListings.categoryFilter st) p
            && PropertyListings.matchesTag (PropertyListings.tagFilter st) p = true).
    rewrite !andb_true_iff. intros [[Hs Hcat] Htag].
    split; [split|]; try assumption. now apply (matchesSearch_listing_weaken t t').
  - apply filter_sublist_mono. intros p.
    change (Part002.matchesSearch t' p
            && Part002.matchesStatus (Part002.statusFilter st2) p
            && Part002.matchesPrice (Part002.priceRange st2) p = true ->
            Part002.matchesSearch t p
            && Part002.matchesStatus (Part002.statusFilter st2) p
            && Part002.matchesPrice (Part002.priceRange st2) p = true).
    rewrite !andb_true_iff. intros [[Hs Hst] Hp].
    split; [split|]; try assumption. now apply (matchesSearch_apartment_weaken t t').
Qed.

(** X17. The case of the letters of the search term is of no account:
    searching for a term and for its lower-case form show the same records,
    in either view. *)
Theorem X17_case_of_search_term_is_ignored
    (st : PropertyListings.State) (st2 : Part002.State) (t : string) :
  PropertyListings.filteredProperties
    (PropertyListings.filterProperties (PropertyListings.setSearchTerm (toLowerCase t) st))
  = PropertyListings.filteredProperties
      (PropertyListings.filterProperties (PropertyListings.setSearchTerm t st)) /\
  Part002.filteredProperties
    (Part002.filterProperties (Part002.setSearchTerm (toLowerCase t) st2))
  = Part002.filteredProperties
      (Part002.filterProperties (Part002.setSearchTerm t st2)).
Proof.
  split.
  - apply filter_ext. intros p.
    change (PropertyListings.matchesSearch (toLowerCase t) p
            && PropertyListings.matchesCategory (PropertyListings.categoryFilter st) p
            && PropertyListings.matchesTag (PropertyListings.tagFilter st) p
            = PropertyListings.matchesSearch t p
              && PropertyListings.matchesCategory (PropertyListings.categoryFilter st) p
              && PropertyListings.matchesTag (PropertyListings.tagFilter st) p).
    now rewrite matchesSearch_listing_lower.
  - apply filter_ext. intros p.
    change (Part002.matchesSearch (toLowerCase t) p
            && Part002.matchesStatus (Part002.statusFilter st2) p
            && Part002.matchesPrice (Part002.priceRange st2) p
            = Part002.matchesSearch t p
              && Part002.matchesStatus (Part002.statusFilter st2) p
              && Part002.matchesPrice (Part002.priceRange st2) p).
    now rewrite matchesSearch_apartment_lower.
Qed.

(** X18. Relaxing a control never hides a record: what is shown under given
    controls is a sublist of what is shown once the search box is emptied,
    or once a selection is put back on ["all"]. *)
Theorem X18_relaxing_a_control_hides_nothing
    (st : PropertyListings.State) (st2 : Part002.State) :
  let shown := PropertyListings.filteredProperties (PropertyListings.filterProperties st) in
  let shown2 := Part002.filteredProperties (Part002.filterProperties st2) in
  shown `sublist_of`
    PropertyListings.filteredProperties
      (PropertyListings.filterProperties (PropertyListings.setSearchTerm "" st)) /\
  shown `sublist_of`
    PropertyListings.filteredProperties
      (PropertyListings.filterProperties (PropertyListings.setCategoryFilter "all" st)) /\
  shown `sublist_of`
    PropertyListings.filteredProperties
      (PropertyListings.filterProperties (PropertyListings.setTagFilter "all" st)) /\
  shown2 `sublist_of`
    Part002.filteredProperties (Part002.filterProperties (Part002.setSearchTerm "" st2)) /\
  shown2 `sublist_of`
    Part002.filteredProperties (Part002.filterProperties (Part002.setStatusFilter "all" st2)).
Proof.
  cbv zeta. split; [|split; [|split; [|split]]]; apply filter_sublist_mono; intros p.
  - change (PropertyListings.keeps st p = true ->
            PropertyListings.matchesSearch "" p
            && PropertyListings.matchesCategory (PropertyListings.categoryFilter st) p
            && PropertyListings.matchesTag (PropertyListings.tagFilter st) p = true).
    unfold PropertyListings.keeps. rewrite matchesSearch_listing_empty, !andb_true_iff.
    tauto.
  - change (PropertyListings.keeps st p = true ->
            PropertyListings.matchesSearch (PropertyListings.searchTerm st) p
            && PropertyListings.matchesCategory "all" p
            && PropertyListings.matchesTag (PropertyListings.tagFilter st) p = true).
    unfold PropertyListings.keeps. rewrite !andb_true_iff. tauto.
  - change (PropertyListings.keeps st p = true ->
            PropertyListings.matchesSearch (PropertyListings.searchTerm st) p
            && PropertyListings.matchesCategory (PropertyListings.categoryFilter st) p
            && PropertyListings.matchesTag "all" p = true).
    unfold PropertyListings.keeps. rewrite !andb_true_iff. tauto.
  - change (Part002.keeps st2 p = true ->
            Part002.matchesSearch "" p
            && Part002.matchesStatus (Part002.statusFilter st2) p
            && Part002.matchesPrice (Part002.priceRange st2) p = true).
    unfold Part002.keeps. rewrite matchesSearch_apartment_empty, !andb_true_iff. tauto.
  - change (Part002.keeps st2 p = true ->
            Part002.matchesSearch (Part002.searchTerm st2) p
            && Part002.matchesStatus "all" p
            && Part002.matchesPrice (Part002.priceRange st2) p = true).
    unfold Part002.keeps. rewrite !andb_true_iff. tauto.
Qed.

End SearchFacts.

(** ** Cards *)

Section CardFacts.
Import Js.

Lemma append_empty_r (s : string) : (s ++ "")%string = s.
Proof. induction s as [|c s IH]; simpl; [reflexivity | now rewrite IH]. Qed.

Lemma as_string_inv v s : PropertyListings.as_string v = Some s -> v = VString s.
Proof. destruct v; simpl; intros H; try discriminate H. now injection H as <-. Qed.

(** What a literal that has type [Property] holds in the fields the cards
    show under a condition. *)
Lemma asProperty_listing_inv o q :
  PropertyListings.asProperty o = Some q ->
  PropertyListings.Any.photoUrl o = VString (PropertyListings.photoUrl q) /\
  PropertyListings.Any.projectHighlights o = VString (PropertyListings.projectHighlights q) /\
  PropertyListings.as_string_array (PropertyListings.Any.amenities o)
  = Some (PropertyListings.amenities q) /\
  PropertyListings.as_string_array (PropertyListings.Any.tags o)
  = Some (PropertyListings.tags q).
Proof.
  unfold PropertyListings.asProperty.
  destruct (PropertyListings.as_string (PropertyListings.Any._id o)); [|discriminate].
  destruct (PropertyListings.as_string (PropertyListings.Any.title o)); [|discriminate].
  destruct (PropertyListings.as_string (PropertyListings.Any.location o)); [|discriminate].
  destruct (PropertyListings.as_string (PropertyListings.Any.price o)); [|discriminate].
  destruct (PropertyListings.as_string (PropertyListings.Any.priceSqft o)); [|discriminate].
  destruct (PropertyListings.as_string (PropertyListings.Any.photoUrl o)) eqn:Eph;
    [|discriminate].
  destruct (PropertyListings.as_string (PropertyListings.Any.listingUrl o)); [|discriminate].
  destruct (PropertyListings.as_string_array (PropertyListings.Any.amenities o)) eqn:Eam;
    [|discriminate].
  destruct (PropertyListings.as_string (PropertyListings.Any.address o)); [|discriminate].
  destruct (PropertyListings.as_string (PropertyListings.Any.category o)); [|discriminate].
  destruct (PropertyListings.as_string_array (PropertyListings.Any.tags o)) eqn:Etg;
    [|discriminate].
  destruct (PropertyListings.as_string (PropertyListings.Any.projectHighlights o)) eqn:Ehl;
    [|discriminate].
  destruct (PropertyListings.as_string (PropertyListings.Any.reraId o)); [|discriminate].
  intros H. injection H as <-. simpl.
  split; [now apply as_string_inv|]. split; [now apply as_string_inv|].
  split; reflexivity.
Qed.

Lemma asProperty_apartment_prices o q :
  Part002.asProperty o = Some q ->
  Part002.Minimum_Price q = Part002.Any.Minimum_Price o /\
  Part002.Maximum_Price q = Part002.Any.Maximum_Price o.
Proof.
  unfold Part002.asProperty, Part002.as_string, Part002.as_string_array.
  destruct (PropertyListings.as_string (Part002.Any._id o)); [|discriminate].
  destruct (PropertyListings.as_string (Part002.Any.Apartment_Name o)); [|discriminate].
  destruct (PropertyListings.as_string (Part002.Any.Location o)); [|discriminate].
  destruct (PropertyListings.as_string (Part002.Any.Total_Area o)); [|discriminate].
  destruct (PropertyListings.as_string (Part002.Any.Project_Status o)); [|discriminate].
  destruct (PropertyListings.as_string (Part002.Any.Photo_URL o)); [|discriminate].
  destruct (PropertyListings.as_string (Part002.Any.Listing_URL o)); [|discriminate].
  destruct (PropertyListings.as_string_array (Part002.Any.Amenities o)); [|discriminate].
  intros H. injection H as <-. split; reflexivity.
Qed.

Lemma chips_facts (amenities shown : list string) (more : option nat) :
  shown = firstn 4 amenities ->
  more = (if (4 <? length amenities)%nat then Some (length amenities - 4) else None) ->
  (shown ++ skipn 4 amenities)%list = amenities /\
  length shown <= 4 /\
  length shown + match more with Some n => n | None => 0 end = length amenities /\
  (more = None <-> length amenities <= 4) /\
  (forall n, more = Some n -> 0 < n).
Proof.
  intros -> ->. split; [apply firstn_skipn|].
  rewrite length_firstn.
  destruct (4 <? length amenities)%nat eqn:E.
  - apply Nat.ltb_lt in E. repeat split; try lia.
    + discriminate.
    + intros n Hn. injection Hn as <-. lia.
  - apply Nat.ltb_ge in E. repeat split; try lia; discriminate.
Qed.

(** X19. A card shows the first four amenities as chips, in their order,
    and counts the others in its [+N more] badge, which appears exactly
    when there are more than four: chips and badge together account for all
    amenities.  The first view leaves the whole section out when there is no
    amenity; the second view always renders it. *)
Theorem X19_amenity_chips_and_badge
    (toFixed2 toLocaleString : float -> string)
    (p : PropertyListings.Property) (p2 : Part002.Property) :
  let all := PropertyListings.amenities p in
  let all2 := Part002.Amenities p2 in
  let section2 :=
    ApartmentCard.amenity_section (ApartmentCard.card toFixed2 toLocaleString p2) in
  match ListingCard.amenity_section (ListingCard.card p) with
  | None => all = []
  | Some section =>
      all <> [] /\
      (ListingCard.chips section ++ skipn 4 all)%list = all /\
      length (ListingCard.chips section) <= 4 /\
      length (ListingCard.chips section)
      + match ListingCard.more section with Some n => n | None => 0 end = length all /\
      (ListingCard.more section = None <-> length all <= 4) /\
      (forall n, ListingCard.more section = Some n -> 0 < n)
  end /\
  (ApartmentCard.chips section2 ++ skipn 4 all2)%list = all2 /\
  length (ApartmentCard.chips section2) <= 4 /\
  length (ApartmentCard.chips section2)
  + match ApartmentCard.more section2 with Some n => n | None => 0 end = length all2 /\
  (ApartmentCard.more section2 = None <-> length all2 <= 4) /\
  (forall n, ApartmentCard.more section2 = Some n -> 0 < n).
Proof.
  cbv zeta. split.
  - cbn [ListingCard.card ListingCard.amenity_section].
    destruct (PropertyListings.amenities p) as [|a rest] eqn:E; [reflexivity|].
    cbn [length Nat.ltb Nat.leb]. split; [discriminate|].
    now apply chips_facts.
  - cbn [ApartmentCard.card ApartmentCard.amenity_section].
    now apply chips_facts.
Qed.

(** X20. Whatever a received document lacks is left out of its card in the
    first view: without a photo the image is the placeholder (the image
    source is never empty), without highlights there is no highlights
    section, without amenities no amenities section, without tags no tag
    chips.  A field holding a falsy value counts as lacking. *)
Theorem X20_card_of_a_document_with_missing_parts
    (parseFloat : JsValue -> float) (doc : JsValue)
    (p : PropertyListings.Any.Property) (q : PropertyListings.Property) :
  nullish doc = false ->
  PropertyListings.processDoc parseFloat doc = ret p ->
  PropertyListings.asProperty p = Some q ->
  let fields := opt_member doc "fields" in
  let taxonomies := opt_member doc "taxonomies" in
  let shown := ListingCard.card q in
  (truthy (opt_member fields "photo_url") = false ->
   ListingCard.img_src shown = "/placeholder.svg") /\
  (truthy (opt_member fields "project_highlights") = false ->
   ListingCard.highlights shown = None) /\
  (truthy (opt_member fields "amenities") = false ->
   ListingCard.amenity_section shown = None) /\
  (truthy (opt_member taxonomies "at_biz_dir-tags") = false ->
   ListingCard.tag_chips shown = None) /\
  is_empty (ListingCard.img_src shown) = false.
Proof.
  intros Hdoc Hp Hq. rewrite (processDoc_listing _ _ Hdoc) in Hp.
  injection Hp as <-.
  destruct (asProperty_listing_inv _ _ Hq) as (Hph & Hhl & Ham & Htg).
  cbv zeta in *. cbn [PropertyListings.Any.photoUrl PropertyListings.Any.projectHighlights
                      PropertyListings.Any.amenities PropertyListings.Any.tags] in *.
  unfold js_or in *. cbn [ListingCard.card ListingCard.img_src ListingCard.highlights
                          ListingCard.amenity_section ListingCard.tag_chips].
  split; [|split; [|split; [|split]]].
  - intros H. rewrite H in Hph. injection Hph as <-. reflexivity.
  - intros H. rewrite H in Hhl. injection Hhl as <-. reflexivity.
  - intros H. rewrite H in Ham. injection Ham as <-. reflexivity.
  - intros H. rewrite H in Htg. injection Htg as <-. reflexivity.
  - destruct (PropertyListings.photoUrl q); reflexivity.
Qed.

(** X21. An apartment whose document has neither price field gets 0 for
    both, so its card shows the single price [₹] followed by 0 in the
    locale's format, without a range. *)
Theorem X21_card_of_an_unpriced_apartment
    (parseInt parseFloat toFixed2 toLocaleString : _)
    (doc : JsValue) (p : Part002.Any.Property) (q : Part002.Property) :
  nullish doc = false ->
  Part002.processDoc parseInt parseFloat doc = ret p ->
  Part002.asProperty p = Some q ->
  opt_member doc "Minimum Price" = VUndefined ->
  opt_member doc "Maximum Price" = VUndefined ->
  Part002.Minimum_Price q = 0%float /\
  Part002.Maximum_Price q = 0%float /\
  ApartmentCard.price_range (ApartmentCard.card toFixed2 toLocaleString q)
  = (ApartmentCard.rupee ++ toLocaleString 0%float)%string.
Proof.
  intros Hdoc Hp Hq Hmin Hmax. rewrite (processDoc_apartment _ _ _ Hdoc) in Hp.
  injection Hp as <-.
  destruct (asProperty_apartment_prices _ _ Hq) as [Emin Emax].
  cbv zeta in Emin, Emax.
  cbn [Part002.Any.Minimum_Price Part002.Any.Maximum_Price] in Emin, Emax.
  rewrite Hmin in Emin. rewrite Hmax in Emax. cbn in Emin, Emax.
  split; [exact Emin|]. split; [exact Emax|].
  cbn [ApartmentCard.card ApartmentCard.price_range]. rewrite Emin, Emax.
  unfold ApartmentCard.formatPrice.
  change (PrimFloat.leb 10000000 0) with false.
  change (PrimFloat.leb 100000 0) with false.
  change (PrimFloat.eqb 0 0) with true.
  cbn [negb]. apply append_empty_r.
Qed.


End CardFacts.

(** * The further properties at concrete inputs *)

Section MoreWitnesses.
Import Js Mongo Http.

(** X2 on a cached client whose connection is refused, over two requests. *)
Lemma X2_witness_refused_twice :
  connect Cases.refusing Cases.stale_client
  = Some (ThrownError "connect ECONNREFUSED 127.0.0.1:27017") /\
  serve Part000.GET Cases.refusing Scenario.unconfigured (Some Cases.stale_client)
    [Scenario.request; Scenario.other_request]
  = ([mkResponse 500 (Spec.error_body "connect ECONNREFUSED 127.0.0.1:27017");
      mkResponse 500 (Spec.error_body "connect ECONNREFUSED 127.0.0.1:27017")],
     Some Cases.stale_client).
Proof.
  split; [reflexivity|].
  exact (proj1 (X2_cached_client_reconnects_each_time Cases.refusing Scenario.unconfigured
                  Cases.stale_client _ [Scenario.request; Scenario.other_request] eq_refl)).
Defined.

(** X3 on a driver that builds the client and then refuses the connection. *)
Lemma X3_witness_cached_though_refused :
  construct Cases.refusing (Part000.uri Scenario.configured) = None /\
  snd (Part000.GET Cases.refusing Scenario.configured None Scenario.request)
  = Some (mkClient "mongodb://db.example/?retryWrites=true&ssl=false").
Proof.
  split; [reflexivity|].
  destruct (X3_client_is_cached_before_connecting Cases.refusing Scenario.configured
              Scenario.request) as (_ & H & _).
  rewrite (H _ eq_refl eq_refl). reflexivity.
Defined.

(** X4 on a collection of one listing, and on a collection whose second
    document has a string under [_id]. *)
Lemma X4_witness_one_listing :
  fst (Part000.GET (Scenario.serving [Scenario.bare_listing]) Scenario.configured None
         Scenario.request)
  = mkResponse 200 (Spec.documents_body [Part000.formatProperty Scenario.bare_listing]) /\
  Spec.is_error_response
    (fst (Part000.GET
            (Scenario.storing [stored Scenario.bare_listing; Cases.named_listing])
            Scenario.configured None Scenario.request)).
Proof.
  split.
  - destruct (X4_documents_are_the_first_500_in_order
                (Scenario.serving [Scenario.bare_listing]) Scenario.configured None
                Scenario.request [stored Scenario.bare_listing]) as [H _].
    exact (proj1 (H _ eq_refl eq_refl eq_refl) [Scenario.bare_listing] eq_refl).
  - destruct (X4_documents_are_the_first_500_in_order
                (Scenario.storing [stored Scenario.bare_listing; Cases.named_listing])
                Scenario.configured None Scenario.request
                [stored Scenario.bare_listing; Cases.named_listing]) as [H _].
    apply (proj2 (proj2 (H _ eq_refl eq_refl eq_refl))).
    apply Exists_cons_tl, Exists_cons_hd. intros oid. discriminate.
Defined.

(** X5 on a stored listing that holds a telephone number. *)
Lemma X5_witness_telephone_not_sent :
  field Cases.listing_with_extra "owner_phone" = VString "+91 98765 43210" /\
  opt_member (Part000.formatProperty Cases.listing_with_extra) "owner_phone" = VUndefined.
Proof.
  split; [reflexivity|].
  apply (proj1 (X5_formatted_document_has_named_properties_only
                  Cases.listing_with_extra "owner_phone")).
  simpl. intros H. repeat (destruct H as [H|H]; [discriminate H|]). exact H.
Defined.

(** X6 on the listing and its 24-digit identifier. *)
Lemma X6_witness_identifier :
  exists p,
    PropertyListings.processDoc Scenario.parse_number
      (json_element (Part000.formatProperty Scenario.bare_listing)) = ret p /\
    PropertyListings.Any._id p = VString "65a1f0c2e4b0a1b2c3d4e5f6".
Proof.
  exact (proj1 (X6_identifier_round_trip Scenario.parse_number Scenario.parse_number
                  Scenario.parse_number Scenario.bare_listing eq_refl)).
Defined.

(** X7 on an environment whose variable is set to the empty string. *)
Lemma X7_witness_empty_variable :
  serve Part001.GET (Scenario.serving []) Cases.empty_uri None [Scenario.request]
  = ([mkResponse 500
        (Spec.error_body "MONGODB_URI environment variable not configured")], None).
Proof.
  exact (X7_second_handler_reports_missing_or_empty_uri (Scenario.serving [])
           Cases.empty_uri [Scenario.request] (or_intror eq_refl)).
Defined.

(** X8 on a fetch that is rejected, in both views. *)
Lemma X8_witness_rejected_fetch :
  exists st' st2',
    PropertyListings.fetchProperties Scenario.parse_number
      (throw (ThrownValue (VString "offline"))) Scenario.searching_villa = Some st' /\
    Part002.fetchProperties Scenario.parse_number Scenario.parse_number
      (throw (ThrownValue (VString "offline"))) Scenario.searching_lake = Some st2' /\
    PropertyListings.loading st' = false /\
    PropertyListings.properties st' = [Scenario.villa] /\
    PropertyListings.error st' = Some "Unknown error occurred" /\
    Part002.loading st2' = false.
Proof.
  eexists. eexists. split; [reflexivity|]. split; [reflexivity|].
  destruct (X8_how_a_fetch_ends Scenario.parse_number Scenario.parse_number
              Scenario.parse_number (throw (ThrownValue (VString "offline")))
              (throw (ThrownValue (VString "offline")))
              Scenario.searching_villa _ Scenario.searching_lake _ eq_refl eq_refl)
    as [(Hl & _ & _ & _ & Hfail & _) (Hl2 & _)].
  destruct (Hfail _ eq_refl) as (Hp & _ & He).
  split; [exact Hl|]. split; [exact Hp|]. split; [exact He | exact Hl2].
Defined.

(** X9 on a 500 response with the body [{}]. *)
Lemma X9_witness_status_500 :
  ok (mkHttpResponse 500 "{}" (ret (VObject []))) = false /\
  exists st',
    PropertyListings.fetchProperties Scenario.parse_number
      (ret (mkHttpResponse 500 "{}" (ret (VObject [])))) PropertyListings.initial = Some st' /\
    PropertyListings.render st'
    = PropertyListings.ErrorScreen "Failed to fetch data: 500 - {}".
Proof.
  split; [reflexivity|].
  destruct (X9_failed_response_shows_error_screen Scenario.parse_number
              Scenario.parse_number Scenario.parse_number
              (mkHttpResponse 500 "{}" (ret (VObject []))) PropertyListings.initial
              Part002.initial eq_refl) as [(st' & Hst & Hr & _) _].
  exists st'. split; [exact Hst | exact Hr].
Defined.

(** X10 on a 200 response whose body is [{error: "down"}]. *)
Lemma X10_witness_error_body_with_status_200 :
  exists st',
    PropertyListings.fetchProperties Scenario.parse_number
      (ret (mkHttpResponse 200 "" (ret (Spec.error_body "down"))))
      PropertyListings.initial = Some st' /\
    PropertyListings.render st'
    = PropertyListings.ErrorScreen "No documents found in response".
Proof.
  destruct (X10_body_without_documents_is_an_error Scenario.parse_number
              Scenario.parse_number Scenario.parse_number
              (mkHttpResponse 200 "" (ret (Spec.error_body "down")))
              (Spec.error_body "down") PropertyListings.initial Part002.initial
              eq_refl eq_refl eq_refl eq_refl) as [(st' & Hst & Hr & _) _].
  exists st'. split; [exact Hst | exact Hr].
Defined.

(** X11 on two documents, the second of which is [null]. *)
Lemma X11_witness_null_among_documents :
  exists e,
    PropertyListings.processedData Scenario.parse_number
      (Spec.documents_body [Cases.plain_listing_doc; VNull]) = throw e.
Proof.
  assert (Hnull : Exists (fun d => nullish d = true) [Cases.plain_listing_doc; VNull]).
  { apply Exists_cons_tl, Exists_cons_hd. reflexivity. }
  exact (proj1 (X11_one_null_document_fails_the_mapping Scenario.parse_number
                  Scenario.parse_number Scenario.parse_number
                  [Cases.plain_listing_doc; VNull] Hnull)).
Defined.

(** X12 on a fetch rejected with [new Error("")]. *)
Lemma X12_witness_silent_failure :
  exists st',
    PropertyListings.fetchProperties Scenario.parse_number (throw (ThrownError ""))
      Scenario.searching_villa = Some st' /\
    PropertyListings.render st' = PropertyListings.Cards [Scenario.villa].
Proof.
  destruct (X12_empty_error_message_shows_no_error_screen Scenario.parse_number
              Scenario.parse_number Scenario.parse_number
              (throw (ThrownError "")) (throw (ThrownError ""))
              Scenario.searching_villa Scenario.searching_lake eq_refl eq_refl)
    as [(st' & Hst & _ & Hr) _].
  exists st'. split; [exact Hst | exact Hr].
Defined.

(** X15 on an apartment priced at 15 crore, under the initial range. *)
Lemma X15_witness_costly_apartment_hidden :
  PrimFloat.leb (Part002.Minimum_Price Cases.costly) 100000000 = false /\
  ~ In Cases.costly
      (Part002.filteredProperties
         (Part002.filterProperties (Part002.setProperties [Cases.costly] Part002.initial))).
Proof.
  split; [reflexivity|].
  exact (proj2 (X15_unpriced_and_costly_records_are_hidden
                  (Part002.setProperties [Cases.costly] Part002.initial) Cases.costly)
               eq_refl eq_refl).
Defined.

(** X16 on the terms ["vil"] and ["villa"]. *)
Lemma X16_witness_vil_then_villa :
  Spec.contains "villa" "vil" /\
  ascii_text "villa" = true /\
  PropertyListings.filteredProperties
    (PropertyListings.filterProperties
       (PropertyListings.setSearchTerm "villa" Scenario.searching_villa))
  `sublist_of`
  PropertyListings.filteredProperties
    (PropertyListings.filterProperties
       (PropertyListings.setSearchTerm "vil" Scenario.searching_villa)).
Proof.
  assert (Hc : Spec.contains "villa" "vil") by (exists "", "la"; reflexivity).
  assert (Hp : Forall Spec.listing_ascii (PropertyListings.properties Scenario.searching_villa)).
  { constructor; [|constructor]. repeat split. }
  assert (Hp2 : Forall Spec.apartment_ascii (Part002.properties Scenario.searching_lake)).
  { constructor; [|constructor]. repeat split. }
  split; [exact Hc|]. split; [reflexivity|].
  exact (proj1 (X16_longer_search_term_narrows Scenario.searching_villa
                  Scenario.searching_lake "vil" "villa" Hc eq_refl Hp Hp2)).
Defined.

(** X20 on a received listing without photo, highlights, amenities and
    tags. *)
Lemma X20_witness_plain_listing :
  exists q,
    option_map PropertyListings.asProperty
      (match PropertyListings.processDoc Scenario.parse_number Cases.plain_listing_doc with
       | inr p => Some p
       | inl _ => None
       end) = Some (Some q) /\
    ListingCard.img_src (ListingCard.card q) = "/placeholder.svg" /\
    ListingCard.amenity_section (ListingCard.card q) = None.
Proof.
  eexists. split; [reflexivity|].
  destruct (X20_card_of_a_document_with_missing_parts Scenario.parse_number
              Cases.plain_listing_doc _ _ eq_refl eq_refl eq_refl)
    as (Himg & _ & Ham & _).
  split; [exact (Himg eq_refl) | exact (Ham eq_refl)].
Defined.

(** X21 on a received apartment without price fields. *)
Lemma X21_witness_unpriced_apartment :
  exists q,
    option_map Part002.asProperty
      (match Part002.processDoc Scenario.parse_number Scenario.parse_number
               Cases.unpriced_apartment_doc with
       | inr p => Some p
       | inl _ => None
       end) = Some (Some q) /\
    ApartmentCard.price_range (ApartmentCard.card Cases.no_digits Cases.no_digits q)
    = ApartmentCard.rupee.
Proof.
  eexists. split; [reflexivity|].
  destruct (X21_card_of_an_unpriced_apartment Scenario.parse_number Scenario.parse_number
              Cases.no_digits Cases.no_digits Cases.unpriced_apartment_doc _ _
              eq_refl eq_refl eq_refl eq_refl eq_refl) as (_ & _ & H).
  exact H.
Defined.


End MoreWitnesses.
